(** * Mission simulation engine of the AeroDense control station

    A shallow embedding of [useSimulation] (the hook holding the order
    queue, the aircraft, the mission and the active mission id) together
    with the route and distance helpers it calls.

    Number model.  JavaScript numbers are modelled as exact rationals
    ([Q]): no rounding, no overflow.  The one place where the engine can
    store a non-finite number is the aircraft payload, which receives the
    result of [parseFloat]; that field therefore has type [number], which
    adds [NaN] and the two infinities to the rationals.  Rationals are
    compared with [==] ([Qeq]) wherever a value is the result of a
    computation.

    Platform functions.  [Math.sin], [Math.cos], [Math.sqrt],
    [Math.atan2] and [Math.PI] are taken as a parameter ([MathLib]);
    every [Math.random()] call of a tick is an explicit input ([Draws]).

    The lookup [locationCoordinates[name]] is modelled by a finite map on
    the twelve own keys of the table.

    [Binary64] replays the interpolation of the route in the numbers the
    program runs on, on the coordinates of the table.

    The views that read the engine state are embedded too: the position of
    the aircraft marker on the map ([getPositionAlongRoute]), and the
    flight time and the status colours of the aircraft panel
    ([formatTime], [batteryStatus], [signalStatus]). *)

From Stdlib Require Import Ascii String QArith Qround Qminmax Lqa.
From Stdlib Require PrimFloat Uint63.
From stdpp Require Import gmap strings list pretty.

Open Scope Q_scope.

(** ** Numbers *)

(** A JavaScript number where a non-finite value can occur. *)
Inductive number :=
| Num (q : Q)
| PosInfinity
| NegInfinity
| NaN.

(** [ToBoolean] on a number: [0], [-0] and [NaN] are falsy. *)
Definition number_truthy (n : number) : bool :=
  match n with
  | Num q => negb (Qeq_bool q 0)
  | PosInfinity | NegInfinity => true
  | NaN => false
  end.

(** [a || b] on numbers. *)
Definition number_or (a b : number) : number :=
  if number_truthy a then a else b.

(** [ToBoolean] on a [string | null]: [null] and the empty string are
    falsy. *)
Definition id_truthy (i : option string) : bool :=
  match i with
  | None => false
  | Some s => negb (String.eqb s "")
  end.

(** [Math.round]: the nearest integer, halves rounded up. *)
Definition Math_round (x : Q) : Q := inject_Z (Qfloor (x + 1 / 2)).

Definition Math_min (a b : Q) : Q := Qmin a b.
Definition Math_max (a b : Q) : Q := Qmax a b.

(** The transcendental part of [Math]. *)
Record MathLib := {
  Math_PI : Q;
  Math_sin : Q -> Q;
  Math_cos : Q -> Q;
  Math_sqrt : Q -> Q;
  Math_atan2 : Q -> Q -> Q
}.

(** ** parseFloat *)

Module ParseFloat.

Definition is_digit (c : ascii) : bool :=
  let n := Ascii.nat_of_ascii c in (48 <=? n)%nat && (n <=? 57)%nat.

Definition digit_value (c : ascii) : Z :=
  Z.of_nat (Ascii.nat_of_ascii c - 48).

(** White space and line terminators of the ASCII range. *)
Definition is_space (c : ascii) : bool :=
  let n := Ascii.nat_of_ascii c in
  (n =? 32)%nat || ((9 <=? n)%nat && (n <=? 13)%nat).

Fixpoint skip_spaces (s : list ascii) : list ascii :=
  match s with
  | c :: r => if is_space c then skip_spaces r else s
  | [] => []
  end.

(** The longest run of decimal digits at the head of [s], and the rest. *)
Fixpoint take_digits (s : list ascii) : list ascii * list ascii :=
  match s with
  | c :: r =>
      if is_digit c
      then let '(ds, rest) := take_digits r in (c :: ds, rest)
      else ([], s)
  | [] => ([], [])
  end.

Definition digits_value (ds : list ascii) : Z :=
  fold_left (fun acc c => (10 * acc + digit_value c)%Z) ds 0%Z.

(** [starts_with p s]: the rest of [s] after the prefix [p]. *)
Fixpoint starts_with (p s : list ascii) : option (list ascii) :=
  match p, s with
  | [], _ => Some s
  | a :: p', b :: s' => if Ascii.eqb a b then starts_with p' s' else None
  | _ :: _, [] => None
  end.

(** An optional sign; [true] stands for a minus. *)
Definition take_sign (s : list ascii) : bool * list ascii :=
  match s with
  | c :: r =>
      if Ascii.eqb c "-"%char then (true, r)
      else if Ascii.eqb c "+"%char then (false, r)
      else (false, s)
  | [] => (false, [])
  end.

(** The exponent part [e], sign, digits, when one is present and well formed;
    otherwise exponent 0 and nothing is consumed. *)
Definition take_exponent (s : list ascii) : Z :=
  match s with
  | c :: r =>
      if Ascii.eqb c "e"%char || Ascii.eqb c "E"%char then
        let '(neg, r') := take_sign r in
        let '(ds, _) := take_digits r' in
        match ds with
        | [] => 0%Z
        | _ => if neg then (- digits_value ds)%Z else digits_value ds
        end
      else 0%Z
  | [] => 0%Z
  end.

Definition magnitude (ip fp : list ascii) (e : Z) : Q :=
  (inject_Z (digits_value ip)
   + inject_Z (digits_value fp) / inject_Z (10 ^ Z.of_nat (length fp)))
  * Qpower 10 e.

Definition signed (neg : bool) (q : Q) : number :=
  Num (if neg then - q else q).

(** The value of the longest prefix that is a [StrDecimalLiteral]. *)
Definition parse (s : list ascii) : number :=
  let '(neg, r) := take_sign (skip_spaces s) in
  match starts_with (list_ascii_of_string "Infinity") r with
  | Some _ => if neg then NegInfinity else PosInfinity
  | None =>
      let '(ip, r1) := take_digits r in
      match r1 with
      | "."%char :: r2 =>
          let '(fp, r3) := take_digits r2 in
          match ip, fp with
          | [], [] => NaN
          | _, _ => signed neg (magnitude ip fp (take_exponent r3))
          end
      | _ =>
          match ip with
          | [] => NaN
          | _ => signed neg (magnitude ip [] (take_exponent r1))
          end
      end
  end.

End ParseFloat.

Definition parseFloat (s : string) : number :=
  ParseFloat.parse (list_ascii_of_string s).

(** ** Data model *)

Record Coord := { lat : Q; lng : Q }.

(** Modelled from the spec: the declaration of [Order] lives in
    [OrdersPanel], which is not part of the sources; the fields are the
    ones [initialOrders] fills in, and the status values are the four
    the engine writes or tests. *)
Inductive OrderStatus := Pending | Approved | OrderInFlight | Delivered.

Module Order.
Record t := mk {
  id : string;
  packageType : string;
  weight : string;
  pickup : string;
  delivery : string;
  status : OrderStatus
}.

(** [{ ...o, status: st }] *)
Definition with_status (st : OrderStatus) (o : t) : t :=
  mk (id o) (packageType o) (weight o) (pickup o) (delivery o) st.
End Order.

Inductive AircraftStatus := Idle | InFlight | Landing | Charging.
Inductive AircraftMode := Manual | SemiAuto | Auto.

Module Aircraft.
(** [speed] is not declared by [AircraftState]; [startMission] and the
    completion tick write it all the same, so the object carries it from
    the first mission on ([None]: the property is absent). *)
Record t := mk {
  battery : Q;
  payloadWeight : number;
  maxPayload : Q;
  status : AircraftStatus;
  mode : AircraftMode;
  signal : Q;
  satellites : Q;
  cameraActive : bool;
  speed : option Q
}.
End Aircraft.

Module Mission.
Record t := mk {
  progress : Q;
  elapsed : Q;
  eta : Q;
  distance : Q;
  altitude : Q;
  speed : Q;
  routeProgress : Q;
  route : list (Q * Q)
}.
End Mission.

Definition initialAircraft : Aircraft.t :=
  {| Aircraft.battery := 87;
     Aircraft.payloadWeight := Num 0;
     Aircraft.maxPayload := 5.0;
     Aircraft.status := Idle;
     Aircraft.signal := 98;
     Aircraft.satellites := 12;
     Aircraft.cameraActive := true;
     Aircraft.mode := SemiAuto;
     Aircraft.speed := None |}.

Definition initialMission : Mission.t :=
  {| Mission.progress := 0;
     Mission.elapsed := 0;
     Mission.eta := 0;
     Mission.distance := 0;
     Mission.altitude := 150;
     Mission.speed := 0;
     Mission.routeProgress := 0;
     Mission.route := [] |}.

Definition locationCoordinates : gmap string Coord :=
  list_to_map
    [ ("Warehouse A"%string, {| lat := 13.0827; lng := 80.2707 |});
      ("Hospital B"%string, {| lat := 13.0604; lng := 80.2496 |});
      ("Depot C"%string, {| lat := 13.0878; lng := 80.2785 |});
      ("Office Park D"%string, {| lat := 13.0569; lng := 80.2425 |});
      ("Kitchen Hub"%string, {| lat := 13.0475; lng := 80.2090 |});
      ("Residential Zone E"%string, {| lat := 13.1067; lng := 80.2206 |});
      ("HQ Tower"%string, {| lat := 13.0843; lng := 80.2705 |});
      ("Branch Office F"%string, {| lat := 13.0108; lng := 80.2270 |});
      ("Lab Center G"%string, {| lat := 13.0127; lng := 80.2351 |});
      ("Research Facility H"%string, {| lat := 13.0674; lng := 80.2376 |});
      ("Factory I"%string, {| lat := 13.1143; lng := 80.1548 |});
      ("Maintenance Bay J"%string, {| lat := 13.0358; lng := 80.1790 |}) ].

Definition initialOrders : list Order.t :=
  [ Order.mk "ORD-4821" "Medical Supplies" "2.4 kg" "Warehouse A" "Hospital B" Pending;
    Order.mk "ORD-4822" "Electronics" "1.8 kg" "Depot C" "Office Park D" Pending;
    Order.mk "ORD-4823" "Food Package" "3.1 kg" "Kitchen Hub" "Residential Zone E" Pending;
    Order.mk "ORD-4824" "Documents" "0.5 kg" "HQ Tower" "Branch Office F" Pending;
    Order.mk "ORD-4825" "Lab Samples" "1.2 kg" "Lab Center G" "Research Facility H" Pending;
    Order.mk "ORD-4826" "Spare Parts" "4.0 kg" "Factory I" "Maintenance Bay J" Pending ].

(** The four pieces of state of the hook. *)
Record State := mkState {
  orders : list Order.t;
  aircraft : Aircraft.t;
  mission : Mission.t;
  activeMissionOrderId : option string
}.

Definition initialState : State :=
  mkState initialOrders initialAircraft initialMission None.

(** ** Route and distance helpers *)

Definition Q_of_nat (n : nat) : Q := inject_Z (Z.of_nat n).

(** The point pushed by iteration [i] of the loop of
    [generateAerialRoute]. *)
Definition routePoint (from to : Coord) (numPoints i : nat) : Q * Q :=
  let t := Q_of_nat i / Q_of_nat numPoints in
  let lng' := lng from + (lng to - lng from) * t in
  let lat' := lat from + (lat to - lat from) * t in
  (lng', lat').

(** The [for] loop: [n] iterations are left, the next one has index [i]
    and [points] is the array built so far. *)
Fixpoint routeLoop (from to : Coord) (numPoints n i : nat)
    (points : list (Q * Q)) : list (Q * Q) :=
  match n with
  | O => points
  | S n' =>
      routeLoop from to numPoints n' (S i)
        (points ++ [routePoint from to numPoints i])
  end.

(** [i] runs from 0 to [numPoints] inclusive. *)
Definition generateAerialRoute (from to : Coord) (numPoints : nat)
    : list (Q * Q) :=
  routeLoop from to numPoints (S numPoints) 0 [].

(** The default value of the parameter [numPoints]. *)
Definition defaultNumPoints : nat := 50.

Section Haversine.
Context (M : MathLib).

Definition haversineDistance (from to : Coord) : Q :=
  let R := 6371 in
  let dLat := ((lat to - lat from) * Math_PI M) / 180 in
  let dLng := ((lng to - lng from) * Math_PI M) / 180 in
  let a :=
    Math_sin M (dLat / 2) ^ 2
    + Math_cos M ((lat from * Math_PI M) / 180)
      * Math_cos M ((lat to * Math_PI M) / 180)
      * Math_sin M (dLng / 2) ^ 2 in
  R * 2 * Math_atan2 M (Math_sqrt M a) (Math_sqrt M (1 - a)).
End Haversine.

(** ** Commands *)

Definition has_id (orderId : string) (o : Order.t) : bool :=
  String.eqb (Order.id o) orderId.

(** [prev.map((o) => (o.id === orderId ? { ...o, status } : o))] *)
Definition set_status (orderId : string) (st : OrderStatus)
    (os : list Order.t) : list Order.t :=
  List.map (fun o => if has_id orderId o then Order.with_status st o else o) os.

Definition approveOrder (orderId : string) (s : State) : State :=
  mkState (set_status orderId Approved (orders s))
          (aircraft s) (mission s) (activeMissionOrderId s).

Definition rejectOrder (orderId : string) (s : State) : State :=
  mkState (List.filter (fun o => negb (has_id orderId o)) (orders s))
          (aircraft s) (mission s) (activeMissionOrderId s).

Definition addOrder (order : Order.t) (s : State) : State :=
  mkState (orders s ++ [order])
          (aircraft s) (mission s) (activeMissionOrderId s).

Definition is_approved (st : OrderStatus) : bool :=
  match st with Approved => true | _ => false end.

Definition droneSpeed : Q := 42.

(** [o.id === activeMissionOrderId]: [null] equals no string. *)
Definition set_status_of (active : option string) (st : OrderStatus)
    (os : list Order.t) : list Order.t :=
  match active with
  | Some orderId => set_status orderId st os
  | None => os
  end.

Definition emergencyStop (s : State) : State :=
  if negb (id_truthy (activeMissionOrderId s)) then s
  else
    let a := aircraft s in
    mkState
      (set_status_of (activeMissionOrderId s) Pending (orders s))
      (Aircraft.mk (Aircraft.battery a) (Num 0) (Aircraft.maxPayload a)
         Idle (Aircraft.mode a) (Aircraft.signal a)
         (Aircraft.satellites a) (Aircraft.cameraActive a)
         (Aircraft.speed a))
      initialMission
      None.

Definition returnHome (s : State) : State :=
  if negb (id_truthy (activeMissionOrderId s)) then s
  else
    let prev := mission s in
    mkState (orders s) (aircraft s)
      (Mission.mk 95 (Mission.elapsed prev) (Mission.eta prev)
         (Mission.distance prev) (Mission.altitude prev)
         (Mission.speed prev) (Mission.routeProgress prev)
         (Mission.route prev))
      (activeMissionOrderId s).

Definition toggleCamera (s : State) : State :=
  let a := aircraft s in
  mkState (orders s)
    (Aircraft.mk (Aircraft.battery a) (Aircraft.payloadWeight a)
       (Aircraft.maxPayload a) (Aircraft.status a) (Aircraft.mode a)
       (Aircraft.signal a) (Aircraft.satellites a)
       (negb (Aircraft.cameraActive a)) (Aircraft.speed a))
    (mission s) (activeMissionOrderId s).

(** The three [Math.random()] results of one tick, in call order. *)
Record Draws := {
  speedDraw : Q;
  signalDraw : Q;
  satellitesDraw : Q
}.

(** [{ ...a, status: "Idle", payloadWeight: 0, speed: 0 }] *)
Definition land (a : Aircraft.t) : Aircraft.t :=
  Aircraft.mk (Aircraft.battery a) (Num 0) (Aircraft.maxPayload a)
    Idle (Aircraft.mode a) (Aircraft.signal a) (Aircraft.satellites a)
    (Aircraft.cameraActive a) (Some 0).

(** The battery drain and the signal and satellite jitter of a tick. *)
Definition drain (d : Draws) (a : Aircraft.t) : Aircraft.t :=
  Aircraft.mk
    (Math_max 0 (Aircraft.battery a - 0.08))
    (Aircraft.payloadWeight a) (Aircraft.maxPayload a)
    (Aircraft.status a) (Aircraft.mode a)
    (Math_min 100 (Math_max 85 (Aircraft.signal a + (signalDraw d - 0.5) * 2)))
    (Math_max 8
       (Math_min 14
          (Aircraft.satellites a + Math_round ((satellitesDraw d - 0.5) * 1))))
    (Aircraft.cameraActive a) (Aircraft.speed a).

Section Engine.
Context (M : MathLib).

(** The state written by [startMission] once all its guards have let it
    through. *)
Definition launch (orderId : string) (order : Order.t)
    (pickupCoord deliveryCoord : Coord) (s : State) : State :=
  let coordinates :=
    generateAerialRoute pickupCoord deliveryCoord defaultNumPoints in
  let distance := haversineDistance M pickupCoord deliveryCoord in
  let totalEta := Math_round ((distance / droneSpeed) * 3600) in
  let weight := number_or (parseFloat (Order.weight order)) (Num 2.0) in
  let a := aircraft s in
  mkState
    (set_status orderId OrderInFlight (orders s))
    (Aircraft.mk (Aircraft.battery a) weight (Aircraft.maxPayload a)
       InFlight (Aircraft.mode a) (Aircraft.signal a)
       (Aircraft.satellites a) (Aircraft.cameraActive a)
       (Some droneSpeed))
    (Mission.mk 0 0 totalEta distance 150 droneSpeed 0 coordinates)
    (Some orderId).

Definition startMission (orderId : string) (s : State) : State :=
  match List.find (has_id orderId) (orders s) with
  | None => s
  | Some order =>
      if negb (is_approved (Order.status order)) then s
      else if id_truthy (activeMissionOrderId s) then s
      else
        match locationCoordinates !! Order.pickup order,
              locationCoordinates !! Order.delivery order with
        | Some pickupCoord, Some deliveryCoord =>
            launch orderId order pickupCoord deliveryCoord s
        | _, _ => s
        end
  end.

(** *** The simulation tick *)

(** The interval callback exists only while [activeMissionOrderId] is
    truthy (the guard of the effect); it runs the [setMission] updater,
    which on completion also updates the orders, the aircraft and the
    active id, and then drains the aircraft. *)
Definition tick (d : Draws) (s : State) : State :=
  if negb (id_truthy (activeMissionOrderId s)) then s
  else
    let prev := mission s in
    let newProgress := Math_min (Mission.progress prev + 1.5) 100 in
    let newRouteProgress := newProgress / 100 in
    let newElapsed := Mission.elapsed prev + 1 in
    let remainingFraction := 1 - newRouteProgress in
    let totalTime := Mission.distance prev / (Mission.speed prev / 3600) in
    let newEta := Math_max 0 (totalTime * remainingFraction) in
    let altitudeVariation := 150 + Math_sin M (newElapsed * 0.3) * 8 in
    let speedVariation := 40 + speedDraw d * 6 in
    if Qle_bool 100 newProgress then
      mkState
        (set_status_of (activeMissionOrderId s) Delivered (orders s))
        (drain d (land (aircraft s)))
        (Mission.mk 100 (Mission.elapsed prev) 0 (Mission.distance prev)
           (Mission.altitude prev) 0 1 (Mission.route prev))
        None
    else
      mkState
        (orders s)
        (drain d (aircraft s))
        (Mission.mk newProgress newElapsed newEta (Mission.distance prev)
           (Math_round altitudeVariation) (Math_round speedVariation)
           newRouteProgress (Mission.route prev))
        (activeMissionOrderId s).

End Engine.

(** ** The engine as a transition system *)

Inductive Command :=
| ApproveOrder (orderId : string)
| RejectOrder (orderId : string)
| AddOrder (order : Order.t)
| StartMission (orderId : string)
| EmergencyStop
| ReturnHome
| ToggleCamera
| Tick (d : Draws).

(** [Math.random()] lies in [0, 1). *)
Definition valid_draw (r : Q) : bool := Qle_bool 0 r && negb (Qle_bool 1 r).

Definition valid_command (c : Command) : bool :=
  match c with
  | Tick d =>
      valid_draw (speedDraw d) && valid_draw (signalDraw d)
      && valid_draw (satellitesDraw d)
  | _ => true
  end.

Section Reachability.
Context (M : MathLib).

Definition exec (c : Command) (s : State) : State :=
  match c with
  | ApproveOrder i => approveOrder i s
  | RejectOrder i => rejectOrder i s
  | AddOrder o => addOrder o s
  | StartMission i => startMission M i s
  | EmergencyStop => emergencyStop s
  | ReturnHome => returnHome s
  | ToggleCamera => toggleCamera s
  | Tick d => tick M d s
  end.

(** The states the hook can be in: the initial one, and the ones reached
    from it by commands and ticks. *)
Inductive reachable : State -> Prop :=
| reachable_init : reachable initialState
| reachable_step c s :
    reachable s -> valid_command c = true -> reachable (exec c s).

(** Running a list of commands, first one first. *)
Definition run (cs : list Command) (s : State) : State :=
  fold_left (fun st c => exec c st) cs s.

End Reachability.

(** ** A rational stand-in for [Math], to run the engine on examples

    Truncated Taylor polynomials and a Newton iteration, cut to fifteen
    decimals.  No theorem depends on these values: the theorems hold for
    every [MathLib]; the stand-in only lets concrete scenarios compute. *)

Module Sample.

Definition trunc15 (q : Q) : Q :=
  Qred (Qfloor (q * 1000000000000000) # 1000000000000000).

Definition sin (x : Q) : Q :=
  trunc15 (x - x ^ 3 / 6 + x ^ 5 / 120 - x ^ 7 / 5040).

Definition cos (x : Q) : Q :=
  trunc15 (1 - x ^ 2 / 2 + x ^ 4 / 24 - x ^ 6 / 720).

Fixpoint newton (n : nat) (a x : Q) : Q :=
  match n with
  | O => x
  | S n' => newton n' a (trunc15 ((x + a / x) / 2))
  end.

Definition sqrt (a : Q) : Q :=
  if Qle_bool a 0 then 0 else newton 40 a 1.

Definition atan2 (y x : Q) : Q :=
  let z := y / x in trunc15 (z - z ^ 3 / 3 + z ^ 5 / 5).

Definition math : MathLib :=
  {| Math_PI := 3.141592653589793;
     Math_sin := sin;
     Math_cos := cos;
     Math_sqrt := sqrt;
     Math_atan2 := atan2 |}.

(** Draws in the middle of the range for the cosmetic jitter, and the
    lowest speed draw. *)
Definition draws : Draws :=
  {| speedDraw := 0; signalDraw := 0.5; satellitesDraw := 0.5 |}.

(** [ORD-4821] approved and in flight. *)
Definition flying : State :=
  run math [ApproveOrder "ORD-4821"; StartMission "ORD-4821"] initialState.

End Sample.

(** ** The route interpolation in binary64

    The interpolation of [generateAerialRoute] on IEEE 754 doubles, to
    check the end points of the routes between the places of the table
    without the idealisation of the number model. *)

Module Binary64.

Definition of_Z (z : Z) : PrimFloat.float :=
  PrimFloat.of_uint63 (Uint63.of_Z z).

(** The double nearest to a non-negative decimal literal: numerator and
    denominator are exact below 2^53 and the division rounds once. *)
Definition of_Q (q : Q) : PrimFloat.float :=
  PrimFloat.div (of_Z (Qnum q)) (of_Z (Zpos (Qden q))).

Definition routePoint (from to : Coord) (numPoints i : nat)
    : PrimFloat.float * PrimFloat.float :=
  let t := PrimFloat.div (of_Z (Z.of_nat i)) (of_Z (Z.of_nat numPoints)) in
  let lng' :=
    PrimFloat.add (of_Q (lng from))
      (PrimFloat.mul (PrimFloat.sub (of_Q (lng to)) (of_Q (lng from))) t) in
  let lat' :=
    PrimFloat.add (of_Q (lat from))
      (PrimFloat.mul (PrimFloat.sub (of_Q (lat to)) (of_Q (lat from))) t) in
  (lng', lat').

Definition point_is (p : PrimFloat.float * PrimFloat.float) (c : Coord)
    : bool :=
  PrimFloat.eqb (fst p) (of_Q (lng c)) && PrimFloat.eqb (snd p) (of_Q (lat c)).

Definition endpoints_exact (from to : Coord) : bool :=
  point_is (routePoint from to defaultNumPoints 0) from
  && point_is (routePoint from to defaultNumPoints defaultNumPoints) to.

(** The coordinates of the table. *)
Definition places : list Coord :=
  List.map snd (map_to_list locationCoordinates).

End Binary64.

(** ** Vocabulary of the properties *)

(** What [set_status] does to a collection, order by order. *)
Definition status_set (orderId : string) (st : OrderStatus)
    (os os' : list Order.t) : Prop :=
  Forall2
    (fun o o' =>
       if String.eqb (Order.id o) orderId
       then o' = Order.with_status st o
       else o' = o)
    os os'.

(** Progress stays between 0 and 100. *)
Definition progress_bounded (s : State) : Prop :=
  0 <= Mission.progress (mission s) /\ Mission.progress (mission s) <= 100.


(** [routeProgress] mirrors [progress]. *)
Definition progress_synced (s : State) : Prop :=
  Mission.routeProgress (mission s) == Mission.progress (mission s) / 100.

(** A route point against a coordinate: longitude first. *)
Definition point_at (p : Q * Q) (c : Coord) : Prop :=
  fst p == lng c /\ snd p == lat c.

(** The payload [parseFloat(weight) || 2.0] stores for each outcome of
    the parse: the default for [NaN] and for zero, the parsed number
    otherwise. *)
Definition payload_for (parsed payload : number) : Prop :=
  match parsed with
  | NaN => payload = Num 2.0
  | Num q => (q == 0 -> payload = Num 2.0) /\ (~ q == 0 -> payload = Num q)
  | PosInfinity => payload = PosInfinity
  | NegInfinity => payload = NegInfinity
  end.

(** An approved order of weight "0 kg" between two known places. *)
Definition weightless : Order.t :=
  Order.mk "ORD-9000" "Empty Crate" "0 kg" "Warehouse A" "Hospital B" Approved.

(** ** The views on the engine state *)

(** [Math.trunc]: towards zero. *)
Definition Math_trunc (x : Q) : Z :=
  if Qle_bool 0 x then Qfloor x else Qceiling x.

(** [x % y] on numbers: the remainder has the sign of [x]. *)
Definition js_rem (x y : Q) : Q := x - y * inject_Z (Math_trunc (x / y)).

(** [a[i]] for an integer [i]: [undefined] out of range. *)
Definition at_index {A : Type} (a : list A) (i : Z) : option A :=
  if (i <? 0)%Z then None else nth_error a (Z.to_nat i).

(** The position of the aircraft marker ([MapView]).  [None] stands for
    the [TypeError] of reading [start[0]] on [undefined]. *)
Definition getPositionAlongRoute (route : list (Q * Q)) (progress : Q)
    : option (Q * Q) :=
  if (length route <? 2)%nat then
    Some (match route with p :: _ => p | [] => (0, 0) end)
  else
    let last := (Z.of_nat (length route) - 1)%Z in
    let totalSegments := inject_Z last in
    let segmentIndex := Qfloor (progress * totalSegments) in
    let segmentProgress := js_rem (progress * totalSegments) 1 in
    match at_index route (Z.min segmentIndex last),
          at_index route (Z.min (segmentIndex + 1) last) with
    | Some start, Some end_ =>
        let lng' := fst start + (fst end_ - fst start) * segmentProgress in
        let lat' := snd start + (snd end_ - snd start) * segmentProgress in
        Some (lng', lat')
    | _, _ => None
    end.

(** [str.padStart(2, "0")] *)
Definition padStart2 (str : string) : string :=
  match String.length str with
  | O => "00"
  | S O => "0" +:+ str
  | _ => str
  end.

(** The two numbers [formatTime] prints ([AircraftPanel]). *)
Definition formatTime_parts (seconds : Q) : Z * Z :=
  let m := Qfloor (seconds / 60) in
  let s := Qfloor (js_rem seconds 60) in
  (m, s).

Definition formatTime (seconds : Q) : string :=
  let '(m, s) := formatTime_parts seconds in
  pretty m +:+ ":" +:+ padStart2 (pretty s).

Inductive Level := normal | warning | danger.

(** [a > b] *)
Definition Qgt_bool (a b : Q) : bool := negb (Qle_bool a b).

Definition batteryStatus (a : Aircraft.t) : Level :=
  if Qgt_bool (Aircraft.battery a) 50 then normal
  else if Qgt_bool (Aircraft.battery a) 20 then warning
  else danger.

Definition signalStatus (a : Aircraft.t) : Level :=
  if Qgt_bool (Aircraft.signal a) 80 then normal
  else if Qgt_bool (Aircraft.signal a) 50 then warning
  else danger.

(** ** Vocabulary of the further properties *)

(** A run of ticks, one per element of [ds]. *)
Definition ticks (M : MathLib) (ds : list Draws) (s : State) : State :=
  fold_left (fun st d => tick M d st) ds s.

(** The route is empty or one generated between two places of the
    table. *)
Definition route_shape (r : list (Q * Q)) : Prop :=
  r = []
  \/ exists namep named P D,
      locationCoordinates !! namep = Some P
      /\ locationCoordinates !! named = Some D
      /\ r = generateAerialRoute P D defaultNumPoints.

(** How alarming an indicator level is. *)
Definition level_rank (l : Level) : nat :=
  match l with
  | normal => 0
  | warning => 1
  | danger => 2
  end.

(** What an active mission implies. *)
Definition active_ok (s : State) : Prop :=
  id_truthy (activeMissionOrderId s) = true ->
  Aircraft.status (aircraft s) = InFlight
  /\ length (Mission.route (mission s)) = 51%nat
  /\ Mission.progress (mission s) < 100.

(** What every reachable mission satisfies. *)
Definition mission_ok (m : Mission.t) : Prop :=
  0 <= Mission.routeProgress m /\ Mission.routeProgress m <= 1
  /\ 0 <= Mission.elapsed m
  /\ inject_Z (Qfloor (Mission.elapsed m)) == Mission.elapsed m
  /\ route_shape (Mission.route m).

(** What every reachable aircraft satisfies. *)
Definition aircraft_ok (a : Aircraft.t) : Prop :=
  0 <= Aircraft.battery a /\ Aircraft.battery a <= 87
  /\ 85 <= Aircraft.signal a /\ Aircraft.signal a <= 100
  /\ Aircraft.satellites a == 12
  /\ Aircraft.maxPayload a = 5.0
  /\ Aircraft.mode a = SemiAuto
  /\ (Aircraft.status a = Idle \/ Aircraft.status a = InFlight)
  /\ (Aircraft.status a = Idle -> Aircraft.payloadWeight a = Num 0).

(** * Properties *)

(** ** Shared facts *)

Lemma set_status_spec orderId st os :
  status_set orderId st os (set_status orderId st os).
Proof.
  unfold status_set, set_status, has_id.
  induction os as [|o os IH]; simpl; constructor; auto.
  destruct (String.eqb (Order.id o) orderId); reflexivity.
Qed.

Lemma set_status_length orderId st os :
  length (set_status orderId st os) = length os.
Proof. unfold set_status. apply length_map. Qed.

Lemma set_status_ids orderId st os :
  List.map Order.id (set_status orderId st os) = List.map Order.id os.
Proof.
  unfold set_status, has_id.
  induction os as [|o os IH]; simpl; [reflexivity|].
  rewrite IH. destruct (String.eqb (Order.id o) orderId); reflexivity.
Qed.

(** Without a matching order, [set_status] changes nothing. *)
Lemma set_status_absent orderId st os :
  Forall (fun o => Order.id o <> orderId) os ->
  set_status orderId st os = os.
Proof.
  unfold set_status, has_id.
  induction 1 as [|o os Ho _ IH]; simpl; [reflexivity|].
  rewrite IH. apply String.eqb_neq in Ho. rewrite Ho. reflexivity.
Qed.

Lemma find_absent orderId os :
  Forall (fun o => Order.id o <> orderId) os ->
  List.find (has_id orderId) os = None.
Proof.
  unfold has_id.
  induction 1 as [|o os Ho _ IH]; simpl; [reflexivity|].
  apply String.eqb_neq in Ho. rewrite Ho. exact IH.
Qed.

Lemma id_truthy_Some active :
  id_truthy active = true -> exists orderId, active = Some orderId.
Proof. destruct active as [i|]; simpl; [eauto | discriminate]. Qed.

(** ** startMission: the guards *)



(** ** emergencyStop *)

(** C7. Without an active mission [emergencyStop] returns the state it
    was given.  With an active mission for [orderId] it sets the status of
    the order with that id to [Pending] and leaves every other order as it
    is, sets the aircraft status to [Idle] and the payload to 0 while
    battery, maximum payload, mode, signal, satellites and camera flag
    keep their values, resets the mission to [initialMission] (empty
    route, zeroed fields) and clears the active id. *)
Theorem emergencyStop_effect (s : State) :
  (id_truthy (activeMissionOrderId s) = false -> emergencyStop s = s)
  /\ (forall orderId,
        activeMissionOrderId s = Some orderId ->
        id_truthy (activeMissionOrderId s) = true ->
        let s' := emergencyStop s in
        status_set orderId Pending (orders s) (orders s')
        /\ Aircraft.status (aircraft s') = Idle
        /\ Aircraft.payloadWeight (aircraft s') = Num 0
        /\ Aircraft.battery (aircraft s') = Aircraft.battery (aircraft s)
        /\ Aircraft.maxPayload (aircraft s') = Aircraft.maxPayload (aircraft s)
        /\ Aircraft.mode (aircraft s') = Aircraft.mode (aircraft s)
        /\ Aircraft.signal (aircraft s') = Aircraft.signal (aircraft s)
        /\ Aircraft.satellites (aircraft s') = Aircraft.satellites (aircraft s)
        /\ Aircraft.cameraActive (aircraft s')
           = Aircraft.cameraActive (aircraft s)
        /\ mission s' = initialMission
        /\ Mission.route (mission s') = []
        /\ Mission.progress (mission s') = 0
        /\ Mission.routeProgress (mission s') = 0
        /\ Mission.elapsed (mission s') = 0
        /\ Mission.eta (mission s') = 0
        /\ Mission.distance (mission s') = 0
        /\ Mission.speed (mission s') = 0
        /\ activeMissionOrderId s' = None).
Proof.
  unfold emergencyStop. split.
  - intros ->. reflexivity.
  - intros orderId Hid Hactive. rewrite Hactive. simpl. rewrite Hid. simpl.
    repeat split. apply set_status_spec.
Qed.

(** The idle initial state is left alone; the flight of [ORD-4821] is
    stopped and the order is [Pending] again. *)
Lemma emergencyStop_effect_witness :
  emergencyStop initialState = initialState
  /\ orders (emergencyStop Sample.flying) = initialOrders
  /\ mission (emergencyStop Sample.flying) = initialMission
  /\ activeMissionOrderId (emergencyStop Sample.flying) = None.
Proof.
  split; [apply (proj1 (emergencyStop_effect initialState)); reflexivity|].
  pose proof (proj2 (emergencyStop_effect Sample.flying) "ORD-4821"%string
                eq_refl eq_refl) as H.
  cbv zeta in H.
  split; [reflexivity|].
  destruct H as (_ & _ & _ & _ & _ & _ & _ & _ & _ & Hm & H).
  split; [exact Hm|].
  destruct H as (_ & _ & _ & _ & _ & _ & _ & Hid). exact Hid.
Defined.

(** ** returnHome *)

(** C8. Without an active mission [returnHome] returns the state it was
    given.  With one it only writes [progress := 95]: orders (so the
    status of the active order), aircraft, active id and every other
    mission field are unchanged, so the mission is not completed by the
    call; the tick that follows leaves it active at 96.5 with the orders
    untouched. *)
Theorem returnHome_effect (M : MathLib) (s : State) :
  (id_truthy (activeMissionOrderId s) = false -> returnHome s = s)
  /\ (id_truthy (activeMissionOrderId s) = true ->
      let s' := returnHome s in
      orders s' = orders s
      /\ aircraft s' = aircraft s
      /\ activeMissionOrderId s' = activeMissionOrderId s
      /\ Mission.progress (mission s') = 95
      /\ Mission.elapsed (mission s') = Mission.elapsed (mission s)
      /\ Mission.eta (mission s') = Mission.eta (mission s)
      /\ Mission.distance (mission s') = Mission.distance (mission s)
      /\ Mission.altitude (mission s') = Mission.altitude (mission s)
      /\ Mission.speed (mission s') = Mission.speed (mission s)
      /\ Mission.routeProgress (mission s')
         = Mission.routeProgress (mission s)
      /\ Mission.route (mission s') = Mission.route (mission s)
      /\ forall d,
           let s'' := tick M d s' in
           Mission.progress (mission s'') == 96.5
           /\ activeMissionOrderId s'' = activeMissionOrderId s
           /\ orders s'' = orders s).
Proof.
  unfold returnHome. split.
  - intros ->. reflexivity.
  - intros Hactive. rewrite Hactive. simpl.
    repeat split.
    all: unfold tick; simpl; rewrite Hactive; simpl; reflexivity.
Qed.

(** The flight of [ORD-4821] jumps to 95 and is still active; the idle
    initial state is left alone. *)
Lemma returnHome_effect_witness :
  returnHome initialState = initialState
  /\ Mission.progress (mission (returnHome Sample.flying)) = 95
  /\ activeMissionOrderId (returnHome Sample.flying) = Some "ORD-4821"%string
  /\ orders (returnHome Sample.flying) = orders Sample.flying.
Proof.
  split.
  - apply (proj1 (returnHome_effect Sample.math initialState)). reflexivity.
  - pose proof (proj2 (returnHome_effect Sample.math Sample.flying) eq_refl)
      as (Ho & _ & Hid & Hp & _).
    split; [exact Hp|]. split; [exact Hid|]. exact Ho.
Defined.

(** ** Min, max and rounding *)

Lemma Math_min_cases a b :
  (a <= b /\ Math_min a b == a) \/ (b <= a /\ Math_min a b == b).
Proof.
  unfold Math_min.
  destruct (Q.min_spec a b) as [[H E] | [H E]]; [left | right];
    (split; [lra | exact E]).
Qed.

Lemma Math_max_cases a b :
  (a <= b /\ Math_max a b == b) \/ (b <= a /\ Math_max a b == a).
Proof.
  unfold Math_max.
  destruct (Q.max_spec a b) as [[H E] | [H E]]; [left | right];
    (split; [lra | exact E]).
Qed.


(** ** Reachable states *)

Section Invariants.
Context (M : MathLib).

Lemma reachable_run cs :
  forallb valid_command cs = true -> reachable M (run M cs initialState).
Proof.
  unfold run. rewrite <- (rev_involutive cs).
  induction (rev cs) as [|c l IH]; simpl; intros H.
  - constructor.
  - rewrite forallb_app in H. apply andb_prop in H as [Hl Hc].
    simpl in Hc. rewrite andb_true_r in Hc.
    rewrite fold_left_app. simpl. constructor; auto.
Qed.

Lemma tick_progress_bounded d s :
  progress_bounded s -> progress_bounded (tick M d s).
Proof.
  unfold progress_bounded, tick. intros [H0 H100].
  destruct (negb _); [auto|].
  set (np := Math_min (Mission.progress (mission s) + 1.5) 100).
  destruct (Qle_bool 100 np) eqn:E; cbn [mission Mission.progress].
  - lra.
  - subst np.
    destruct (Math_min_cases (Mission.progress (mission s) + 1.5) 100)
      as [[? ->] | [? ->]]; lra.
Qed.

Lemma exec_progress_bounded c s :
  progress_bounded s -> progress_bounded (exec M c s).
Proof.
  intros H. destruct c; cbn [exec]; auto using tick_progress_bounded.
  - unfold startMission.
    repeat match goal with
           | |- context [match ?x with _ => _ end] => destruct x
           end; auto.
    unfold progress_bounded; cbn; lra.
  - unfold emergencyStop. destruct (negb _); auto.
    unfold progress_bounded; cbn; lra.
  - unfold returnHome. destruct (negb _); auto.
    unfold progress_bounded; cbn; lra.
Qed.

Lemma reachable_progress_bounded s :
  reachable M s -> progress_bounded s.
Proof.
  induction 1 as [|c s _ IH _].
  - unfold progress_bounded; cbn; lra.
  - apply exec_progress_bounded, IH.
Qed.

Lemma valid_draw_bounds r : valid_draw r = true -> 0 <= r /\ r < 1.
Proof.
  unfold valid_draw. intros H. apply andb_prop in H as [H0 H1].
  apply Qle_bool_iff in H0. apply negb_true_iff in H1.
  split; [exact H0|].
  destruct (Qlt_le_dec r 1) as [|Hle]; [assumption|].
  apply Qle_bool_iff in Hle. congruence.
Qed.




End Invariants.

(** ** The two branches of the tick *)

Section TickBranches.
Context (M : MathLib).

(** Below 100 the mission goes on: 1.5 more progress, same active id,
    same orders. *)
Lemma tick_running d s :
  id_truthy (activeMissionOrderId s) = true ->
  Mission.progress (mission s) + 1.5 < 100 ->
  activeMissionOrderId (tick M d s) = activeMissionOrderId s
  /\ orders (tick M d s) = orders s
  /\ Mission.progress (mission (tick M d s))
     == Mission.progress (mission s) + 1.5.
Proof.
  intros Hactive Hlt. unfold tick. rewrite Hactive. cbn [negb].
  set (np := Math_min (Mission.progress (mission s) + 1.5) 100).
  assert (Hnp : np == Mission.progress (mission s) + 1.5).
  { subst np.
    destruct (Math_min_cases (Mission.progress (mission s) + 1.5) 100)
      as [[? E] | [? E]]; [exact E | lra]. }
  destruct (Qle_bool 100 np) eqn:E.
  - apply Qle_bool_iff in E. lra.
  - cbn [activeMissionOrderId orders mission Mission.progress]. auto.
Qed.

(** At 100 it ends. *)
Lemma tick_completing d s :
  id_truthy (activeMissionOrderId s) = true ->
  100 <= Mission.progress (mission s) + 1.5 ->
  activeMissionOrderId (tick M d s) = None
  /\ Mission.progress (mission (tick M d s)) = 100.
Proof.
  intros Hactive Hge. unfold tick. rewrite Hactive. cbn [negb].
  set (np := Math_min (Mission.progress (mission s) + 1.5) 100).
  assert (Hnp : np == 100).
  { subst np.
    destruct (Math_min_cases (Mission.progress (mission s) + 1.5) 100)
      as [[? E] | [? E]]; [lra | exact E]. }
  destruct (Qle_bool 100 np) eqn:E.
  - cbn [activeMissionOrderId mission Mission.progress]. auto.
  - assert (Hle : 100 <= np) by lra.
    apply Qle_bool_iff in Hle. congruence.
Qed.

(** After [returnHome] the mission completes on the fourth tick (96.5,
    98, 99.5, 100), whatever the draws. *)
Lemma returnHome_completes_on_fourth_tick s d1 d2 d3 d4 :
  id_truthy (activeMissionOrderId s) = true ->
  let s3 := run M [ReturnHome; Tick d1; Tick d2; Tick d3] s in
  let s4 := tick M d4 s3 in
  activeMissionOrderId s3 = activeMissionOrderId s
  /\ Mission.progress (mission s3) == 99.5
  /\ activeMissionOrderId s4 = None
  /\ Mission.progress (mission s4) = 100.
Proof.
  intros Hactive. unfold run. cbn [fold_left exec].
  assert (H0 : activeMissionOrderId (returnHome s) = activeMissionOrderId s
               /\ Mission.progress (mission (returnHome s)) == 95).
  { unfold returnHome. rewrite Hactive. cbn. split; reflexivity. }
  destruct H0 as [A0 P0].
  set (s0 := returnHome s) in *.
  destruct (tick_running d1 s0) as (A1 & _ & P1);
    [congruence | lra |].
  set (s1 := tick M d1 s0) in *.
  destruct (tick_running d2 s1) as (A2 & _ & P2);
    [congruence | lra |].
  set (s2 := tick M d2 s1) in *.
  destruct (tick_running d3 s2) as (A3 & _ & P3);
    [congruence | lra |].
  set (s3 := tick M d3 s2) in *.
  destruct (tick_completing d4 s3) as (A4 & P4);
    [congruence | lra |].
  cbv zeta. split; [congruence|]. split; [lra|]. auto.
Qed.

End TickBranches.

(** ** The tick: progress and completion *)

(** C4. A tick on a reachable state with an active mission never lowers
    the progress and never takes it above 100; and when the new progress
    is 100, that tick has set the status of the active order to
    [Delivered] (other orders untouched), the aircraft to [Idle] with
    payload 0 and speed 0, the active id to none, and the mission to
    progress 100, route progress 1, eta 0 and speed 0. *)
Theorem tick_progress_and_completion (M : MathLib) (d : Draws) (s : State) :
  reachable M s ->
  id_truthy (activeMissionOrderId s) = true ->
  let s' := tick M d s in
  Mission.progress (mission s) <= Mission.progress (mission s')
  /\ Mission.progress (mission s') <= 100
  /\ (Mission.progress (mission s') == 100 ->
      (exists orderId,
          activeMissionOrderId s = Some orderId
          /\ status_set orderId Delivered (orders s) (orders s'))
      /\ Aircraft.status (aircraft s') = Idle
      /\ Aircraft.payloadWeight (aircraft s') = Num 0
      /\ Aircraft.speed (aircraft s') = Some 0
      /\ activeMissionOrderId s' = None
      /\ Mission.progress (mission s') = 100
      /\ Mission.routeProgress (mission s') = 1
      /\ Mission.eta (mission s') = 0
      /\ Mission.speed (mission s') = 0).
Proof.
  intros Hreach Hactive.
  destruct (reachable_progress_bounded M s Hreach) as [H0 H100].
  destruct (id_truthy_Some _ Hactive) as [orderId Hid].
  unfold tick. rewrite Hactive. cbn [negb].
  set (np := Math_min (Mission.progress (mission s) + 1.5) 100).
  assert (Hnp : Mission.progress (mission s) <= np /\ np <= 100).
  { subst np.
    destruct (Math_min_cases (Mission.progress (mission s) + 1.5) 100)
      as [[? ->] | [? ->]]; lra. }
  destruct (Qle_bool 100 np) eqn:E;
    cbn [mission orders aircraft activeMissionOrderId Mission.progress
         Mission.routeProgress Mission.eta Mission.speed].
  - split; [lra|]. split; [lra|]. intros _.
    split.
    + exists orderId. split; [exact Hid|].
      rewrite Hid. apply set_status_spec.
    + repeat split.
  - split; [tauto|]. split; [tauto|]. intros Heq. exfalso.
    assert (Hle : 100 <= np) by lra.
    apply Qle_bool_iff in Hle. congruence.
Qed.

(** The flight of [ORD-4821], sent home and three ticks later at 99.5,
    completes on the next tick. *)
Lemma tick_progress_and_completion_witness :
  let s := run Sample.math
             [ApproveOrder "ORD-4821"; StartMission "ORD-4821"; ReturnHome;
              Tick Sample.draws; Tick Sample.draws; Tick Sample.draws]
             initialState in
  let s' := tick Sample.math Sample.draws s in
  Mission.progress (mission s) <= Mission.progress (mission s')
  /\ Mission.progress (mission s') <= 100
  /\ activeMissionOrderId s' = None
  /\ Aircraft.status (aircraft s') = Idle.
Proof.
  intros s s'.
  assert (Hreach : reachable Sample.math s).
  { apply reachable_run. vm_compute. reflexivity. }
  assert (Hactive : id_truthy (activeMissionOrderId s) = true).
  { vm_compute. reflexivity. }
  destruct (tick_progress_and_completion Sample.math Sample.draws s
              Hreach Hactive) as (Hmono & Hle & Hdone).
  fold s' in Hmono, Hle, Hdone.
  split; [exact Hmono|]. split; [exact Hle|].
  assert (Hfull : Mission.progress (mission s') == 100).
  { vm_compute. reflexivity. }
  destruct (Hdone Hfull) as (_ & Hidle & _ & _ & Hnone & _).
  split; [exact Hnone | exact Hidle].
Defined.

(** ** Route progress against progress *)

Section Synced.
Context (M : MathLib).

(** Every writer of the mission other than [returnHome] writes
    [progress] and [routeProgress] together. *)
Lemma exec_progress_synced c s :
  c <> ReturnHome -> progress_synced s -> progress_synced (exec M c s).
Proof.
  intros Hc H. destruct c; cbn [exec]; auto; try congruence.
  - unfold startMission.
    repeat match goal with
           | |- context [match ?x with _ => _ end] => destruct x
           end; auto.
    unfold progress_synced; cbn; reflexivity.
  - unfold emergencyStop. destruct (negb _); auto.
    unfold progress_synced; cbn; reflexivity.
  - unfold tick. destruct (negb _); auto.
    destruct (Qle_bool 100 _);
      unfold progress_synced; cbn [mission Mission.progress
                                   Mission.routeProgress];
      reflexivity.
Qed.

(** A tick of an active mission recomputes both, whatever they were. *)
Lemma tick_progress_synced d s :
  id_truthy (activeMissionOrderId s) = true ->
  progress_synced (tick M d s).
Proof.
  intros Hactive. unfold tick. rewrite Hactive. cbn [negb].
  destruct (Qle_bool 100 _);
    unfold progress_synced; cbn [mission Mission.progress
                                 Mission.routeProgress];
    reflexivity.
Qed.

End Synced.

(** C1. [returnHome] breaks [routeProgress == progress / 100]: on the
    reachable state where [ORD-4821] has just been started, it leaves the
    mission with progress 95 and route progress 0. *)
Theorem returnHome_desyncs_routeProgress (M : MathLib) :
  let s := run M [ApproveOrder "ORD-4821"; StartMission "ORD-4821";
                  ReturnHome] initialState in
  reachable M s
  /\ Mission.progress (mission s) = 95
  /\ Mission.routeProgress (mission s) = 0
  /\ ~ progress_synced s.
Proof.
  intros s. split; [apply reachable_run; reflexivity|].
  split; [reflexivity|]. split; [reflexivity|].
  unfold progress_synced.
  change (Mission.routeProgress (mission s)) with 0.
  change (Mission.progress (mission s)) with 95.
  apply Qeq_bool_neq. reflexivity.
Qed.

(** ** The tick: elapsed time and eta *)




(** ** The route *)

Section Route.
Context (from to : Coord) (numPoints : nat).

(** The loop appends one point per index, in order. *)
Lemma routeLoop_spec n i points :
  routeLoop from to numPoints n i points
  = points ++ List.map (routePoint from to numPoints) (seq i n).
Proof.
  revert i points. induction n as [|n IH]; intros i points; simpl.
  - rewrite app_nil_r. reflexivity.
  - rewrite IH, <- app_assoc. reflexivity.
Qed.

Lemma generateAerialRoute_length :
  length (generateAerialRoute from to numPoints) = S numPoints.
Proof.
  unfold generateAerialRoute. rewrite routeLoop_spec.
  cbn [app]. rewrite length_map, length_seq. reflexivity.
Qed.

Lemma generateAerialRoute_nth i :
  (i <= numPoints)%nat ->
  nth_error (generateAerialRoute from to numPoints) i
  = Some (routePoint from to numPoints i).
Proof.
  intros Hi. unfold generateAerialRoute. rewrite routeLoop_spec.
  cbn [app]. rewrite nth_error_map, nth_error_seq.
  destruct (Nat.ltb_spec i (S numPoints)); [reflexivity | lia].
Qed.

End Route.

Lemma routePoint_first from to numPoints :
  point_at (routePoint from to numPoints 0) from.
Proof.
  unfold point_at, routePoint, Q_of_nat. cbn [fst snd Z.of_nat].
  assert (E : inject_Z 0 / inject_Z (Z.of_nat numPoints) == 0).
  { unfold Qdiv. change (inject_Z 0) with 0. lra. }
  rewrite E. split; lra.
Qed.

Lemma routePoint_last from to numPoints :
  (0 < numPoints)%nat ->
  point_at (routePoint from to numPoints numPoints) to.
Proof.
  intros Hpos. unfold point_at, routePoint, Q_of_nat. cbn [fst snd].
  assert (E : inject_Z (Z.of_nat numPoints) / inject_Z (Z.of_nat numPoints)
              == 1).
  { assert (Hnz : ~ inject_Z (Z.of_nat numPoints) == 0).
    { change 0 with (inject_Z 0). rewrite inject_Z_injective. lia. }
    field. exact Hnz. }
  rewrite E. split; lra.
Qed.

(** C6. When [startMission] goes through, with pickup [P] and delivery
    [D], the route it stores has 51 points; the point at every index [i]
    up to 50 is [P + (D - P) * (i / 50)] on longitude and on latitude;
    the point at index 0 is [P] and the point at index 50 is [D]. *)
Theorem startMission_route (M : MathLib) (orderId : string) (s : State)
    (order : Order.t) (P D : Coord) :
  List.find (has_id orderId) (orders s) = Some order ->
  Order.status order = Approved ->
  id_truthy (activeMissionOrderId s) = false ->
  locationCoordinates !! Order.pickup order = Some P ->
  locationCoordinates !! Order.delivery order = Some D ->
  let r := Mission.route (mission (startMission M orderId s)) in
  length r = 51%nat
  /\ (forall i, (i <= 50)%nat ->
        nth_error r i
        = Some (lng P + (lng D - lng P) * (Q_of_nat i / 50),
                lat P + (lat D - lat P) * (Q_of_nat i / 50)))
  /\ (exists p0, nth_error r 0 = Some p0 /\ point_at p0 P)
  /\ (exists p50, nth_error r 50 = Some p50 /\ point_at p50 D).
Proof.
  intros Hfind Hst Hidle HP HD.
  unfold startMission. rewrite Hfind, Hst, Hidle, HP, HD.
  cbn [is_approved negb]. unfold launch. cbn [mission Mission.route].
  split; [apply generateAerialRoute_length|].
  split; [intros i Hi; apply generateAerialRoute_nth; exact Hi|].
  split.
  - exists (routePoint P D defaultNumPoints 0).
    split; [apply generateAerialRoute_nth; unfold defaultNumPoints; lia|].
    apply routePoint_first.
  - exists (routePoint P D defaultNumPoints 50).
    split; [apply generateAerialRoute_nth; unfold defaultNumPoints; lia|].
    apply routePoint_last. unfold defaultNumPoints. lia.
Qed.

(** The approved seed order [ORD-4821]: from Warehouse A to Hospital B. *)
Lemma startMission_route_witness :
  let s := approveOrder "ORD-4821" initialState in
  let r := Mission.route (mission (startMission Sample.math "ORD-4821" s)) in
  length r = 51%nat
  /\ (exists p0, nth_error r 0 = Some p0
                 /\ point_at p0 {| lat := 13.0827; lng := 80.2707 |})
  /\ (exists p50, nth_error r 50 = Some p50
                  /\ point_at p50 {| lat := 13.0604; lng := 80.2496 |}).
Proof.
  intros s r.
  destruct (startMission_route Sample.math "ORD-4821" s
              (Order.mk "ORD-4821" "Medical Supplies" "2.4 kg"
                        "Warehouse A" "Hospital B" Approved)
              {| lat := 13.0827; lng := 80.2707 |}
              {| lat := 13.0604; lng := 80.2496 |}
              eq_refl eq_refl eq_refl eq_refl eq_refl)
    as (Hlen & _ & H0 & H50).
  split; [exact Hlen|]. split; [exact H0 | exact H50].
Defined.

(** On doubles too, the route between any two places of the table starts
    on the pickup and ends on the delivery, bit for bit: the coordinates
    are within a factor two of each other, so their difference is exact.
    Between far apart numbers the last point can miss the target. *)
Lemma binary64_table_endpoints_exact :
  length Binary64.places = 12%nat
  /\ forallb
       (fun from => forallb (Binary64.endpoints_exact from) Binary64.places)
       Binary64.places = true
  /\ Binary64.endpoints_exact {| lat := 10000000000000000; lng := 1 |}
                              {| lat := 1; lng := 1 |} = false.
Proof. repeat split; vm_compute; reflexivity. Qed.

(** ** startMission: the launch *)

Lemma number_or_payload parsed : payload_for parsed (number_or parsed (Num 2.0)).
Proof.
  unfold payload_for, number_or. destruct parsed as [q| | |]; cbn; auto.
  destruct (Qeq_bool q 0) eqn:E; cbn.
  - apply Qeq_bool_iff in E. split; [reflexivity | tauto].
  - apply Qeq_bool_neq in E. split; [tauto | reflexivity].
Qed.

(** C3, as the code has it.  When the order found for [orderId] is
    [Approved], no mission is active and both names resolve,
    [startMission] sets the active id to [orderId], the status of that
    order to in flight, the aircraft to [InFlight] at speed 42 with the
    parsed weight as payload, where the default 2.0 replaces a weight that
    does not parse and also a weight that parses to zero, and the mission
    to progress 0, elapsed 0, eta [round(distance / 42 * 3600)], the
    haversine distance of the endpoints, altitude 150, speed 42, route
    progress 0 and the generated route. *)
Theorem startMission_launches (M : MathLib) (orderId : string) (s : State)
    (order : Order.t) (P D : Coord) :
  List.find (has_id orderId) (orders s) = Some order ->
  Order.status order = Approved ->
  id_truthy (activeMissionOrderId s) = false ->
  locationCoordinates !! Order.pickup order = Some P ->
  locationCoordinates !! Order.delivery order = Some D ->
  let s' := startMission M orderId s in
  let distance := haversineDistance M P D in
  activeMissionOrderId s' = Some orderId
  /\ status_set orderId OrderInFlight (orders s) (orders s')
  /\ Aircraft.status (aircraft s') = InFlight
  /\ payload_for (parseFloat (Order.weight order))
                 (Aircraft.payloadWeight (aircraft s'))
  /\ Aircraft.speed (aircraft s') = Some 42
  /\ Mission.progress (mission s') = 0
  /\ Mission.elapsed (mission s') = 0
  /\ Mission.eta (mission s') = Math_round (distance / 42 * 3600)
  /\ Mission.distance (mission s') = distance
  /\ Mission.altitude (mission s') = 150
  /\ Mission.speed (mission s') = 42
  /\ Mission.routeProgress (mission s') = 0
  /\ Mission.route (mission s') = generateAerialRoute P D 50.
Proof.
  intros Hfind Hst Hidle HP HD.
  unfold startMission. rewrite Hfind, Hst, Hidle, HP, HD.
  cbn [is_approved negb]. unfold launch.
  cbn [activeMissionOrderId orders aircraft mission Aircraft.status
       Aircraft.payloadWeight Aircraft.speed Mission.progress
       Mission.elapsed Mission.eta Mission.distance Mission.altitude
       Mission.speed Mission.routeProgress Mission.route].
  split; [reflexivity|]. split; [apply set_status_spec|].
  split; [reflexivity|]. split; [apply number_or_payload|].
  repeat (split; [reflexivity|]). reflexivity.
Qed.

(** The approved seed order [ORD-4821], weight "2.4 kg". *)
Lemma startMission_launches_witness :
  let s := approveOrder "ORD-4821" initialState in
  let s' := startMission Sample.math "ORD-4821" s in
  activeMissionOrderId s' = Some "ORD-4821"%string
  /\ Aircraft.status (aircraft s') = InFlight
  /\ payload_for (Num 2.4) (Aircraft.payloadWeight (aircraft s'))
  /\ Mission.route (mission s')
     = generateAerialRoute {| lat := 13.0827; lng := 80.2707 |}
                           {| lat := 13.0604; lng := 80.2496 |} 50.
Proof.
  intros s s'.
  destruct (startMission_launches Sample.math "ORD-4821" s
              (Order.mk "ORD-4821" "Medical Supplies" "2.4 kg"
                        "Warehouse A" "Hospital B" Approved)
              {| lat := 13.0827; lng := 80.2707 |}
              {| lat := 13.0604; lng := 80.2496 |}
              eq_refl eq_refl eq_refl eq_refl eq_refl)
    as (Hid & _ & Hfly & Hpay & _ & _ & _ & _ & _ & _ & _ & _ & Hroute).
  split; [exact Hid|]. split; [exact Hfly|].
  split; [exact Hpay | exact Hroute].
Defined.

(** C3 as stated fails on a weight that parses to zero: "0 kg" parses, to
    0, and the payload is the default 2.0 all the same. *)
Lemma startMission_zero_weight_defaults :
  let s := addOrder weightless initialState in
  let s' := startMission Sample.math "ORD-9000" s in
  parseFloat (Order.weight weightless) = Num 0
  /\ activeMissionOrderId s' = Some "ORD-9000"%string
  /\ Aircraft.payloadWeight (aircraft s') = Num 2.0
  /\ Aircraft.payloadWeight (aircraft s')
     <> parseFloat (Order.weight weightless).
Proof.
  cbv zeta. split; [vm_compute; reflexivity|].
  split; [vm_compute; reflexivity|].
  split; [vm_compute; reflexivity|].
  vm_compute. discriminate.
Qed.

(** ** Removal of orders *)

Lemma set_status_of_ids active st os :
  List.map Order.id (set_status_of active st os) = List.map Order.id os.
Proof. destruct active; cbn; [apply set_status_ids | reflexivity]. Qed.

Lemma rejectOrder_clears orderId s :
  Forall (fun o => Order.id o <> orderId) (orders (rejectOrder orderId s)).
Proof.
  unfold rejectOrder. cbn [orders]. apply List.Forall_forall.
  intros o Ho. apply filter_In in Ho as [_ Ho].
  unfold has_id in Ho. apply negb_true_iff in Ho.
  apply String.eqb_neq. exact Ho.
Qed.

Lemma filter_absent orderId os :
  Forall (fun o => Order.id o <> orderId) os ->
  List.filter (fun o => negb (has_id orderId o)) os = os.
Proof.
  unfold has_id.
  induction 1 as [|o os Ho _ IH]; simpl; [reflexivity|].
  apply String.eqb_neq in Ho. rewrite Ho, IH. reflexivity.
Qed.

(** C9, as the code has it.  No command other than [rejectOrder] removes
    an order: the ids of the collection are kept in place, with at most
    new ones appended.  [rejectOrder orderId] removes the orders with that
    id, whatever their status, and keeps the others.  With no order of
    that id it returns the state it was given, so the length of the
    collection is unchanged. *)
Theorem orders_removed_only_by_rejectOrder (M : MathLib) (s : State) :
  (forall c,
      (forall orderId, c <> RejectOrder orderId) ->
      exists added,
        List.map Order.id (orders (exec M c s))
        = List.map Order.id (orders s) ++ added)
  /\ (forall orderId o,
        In o (orders (rejectOrder orderId s))
        <-> In o (orders s) /\ Order.id o <> orderId)
  /\ (forall orderId,
        Forall (fun o => Order.id o <> orderId) (orders s) ->
        rejectOrder orderId s = s
        /\ length (orders (rejectOrder orderId s)) = length (orders s)).
Proof.
  split; [|split].
  - intros c Hc. destruct c; cbn [exec].
    + exists []. rewrite app_nil_r. apply set_status_ids.
    + exfalso. exact (Hc orderId eq_refl).
    + exists [Order.id order]. unfold addOrder. cbn [orders].
      apply map_app.
    + exists []. rewrite app_nil_r. unfold startMission.
      repeat match goal with
             | |- context [match ?x with _ => _ end] => destruct x
             end; try reflexivity.
      unfold launch. cbn [orders]. apply set_status_ids.
    + exists []. rewrite app_nil_r. unfold emergencyStop.
      destruct (negb _); [reflexivity|]. apply set_status_of_ids.
    + exists []. rewrite app_nil_r. unfold returnHome.
      destruct (negb _); reflexivity.
    + exists []. rewrite app_nil_r. reflexivity.
    + exists []. rewrite app_nil_r. unfold tick.
      destruct (negb _); [reflexivity|].
      destruct (Qle_bool 100 _); [apply set_status_of_ids | reflexivity].
  - intros orderId o. unfold rejectOrder. cbn [orders].
    rewrite filter_In. unfold has_id. rewrite negb_true_iff.
    rewrite String.eqb_neq. reflexivity.
  - intros orderId Habsent.
    assert (E : rejectOrder orderId s = s).
    { unfold rejectOrder. rewrite (filter_absent _ _ Habsent).
      destruct s; reflexivity. }
    rewrite E. auto.
Qed.

(** Approving keeps the six seed ids; rejecting an id nobody has leaves
    the six orders. *)
Lemma orders_removed_only_by_rejectOrder_witness :
  (exists added,
      List.map Order.id
        (orders (exec Sample.math (ApproveOrder "ORD-4821") initialState))
      = List.map Order.id initialOrders ++ added)
  /\ rejectOrder "ORD-0000" initialState = initialState
  /\ length (orders (rejectOrder "ORD-0000" initialState)) = 6%nat.
Proof.
  destruct (orders_removed_only_by_rejectOrder Sample.math initialState)
    as (Hkeep & _ & Habsent).
  split.
  - apply Hkeep. intros orderId. discriminate.
  - apply Habsent. unfold initialState, initialOrders. cbn [orders].
    repeat constructor; cbn; discriminate.
Defined.

(** C9 as stated fails on an approved order: [ORD-4821] is [Approved],
    not [Pending], when it is rejected, and it is removed. *)
Lemma rejectOrder_removes_approved_order :
  let s := approveOrder "ORD-4821" initialState in
  option_map Order.status (List.find (has_id "ORD-4821") (orders s))
  = Some Approved
  /\ List.find (has_id "ORD-4821") (orders (rejectOrder "ORD-4821" s)) = None
  /\ length (orders s) = 6%nat
  /\ length (orders (rejectOrder "ORD-4821" s)) = 5%nat.
Proof. cbv zeta. repeat split. Qed.

(** ** rejectOrder: the frame *)

(** C10. [rejectOrder orderId] leaves aircraft, mission and active id as
    they are and leaves no order of that id.  When [orderId] is the active
    mission, the mission therefore stays active and keeps ticking, and no
    tick changes the orders any more: the completing tick clears the
    active id and finds no order to mark [Delivered]. *)
Theorem rejectOrder_frame (M : MathLib) (orderId : string) (s : State) :
  let s' := rejectOrder orderId s in
  aircraft s' = aircraft s
  /\ mission s' = mission s
  /\ activeMissionOrderId s' = activeMissionOrderId s
  /\ Forall (fun o => Order.id o <> orderId) (orders s')
  /\ (activeMissionOrderId s = Some orderId ->
      id_truthy (activeMissionOrderId s) = true ->
      id_truthy (activeMissionOrderId s') = true
      /\ forall d,
           orders (tick M d s') = orders s'
           /\ (100 <= Mission.progress (mission s) + 1.5 ->
               activeMissionOrderId (tick M d s') = None
               /\ Mission.progress (mission (tick M d s')) = 100)).
Proof.
  intros s'.
  pose proof (rejectOrder_clears orderId s) as Hclear. fold s' in Hclear.
  repeat (split; [reflexivity|]). split; [exact Hclear|].
  intros Hid Hactive.
  assert (Hactive' : id_truthy (activeMissionOrderId s') = true)
    by exact Hactive.
  split; [exact Hactive'|]. intros d. split.
  - unfold tick. rewrite Hactive'. cbn [negb].
    destruct (Qle_bool 100 _); cbn [orders]; [|reflexivity].
    change (activeMissionOrderId s') with (activeMissionOrderId s).
    rewrite Hid. cbn [set_status_of].
    apply set_status_absent. exact Hclear.
  - intros Hge. apply tick_completing; assumption.
Qed.

(** [ORD-4821] rejected in flight and sent home: three ticks later the
    completing tick ends the mission and the five orders left are still
    [Pending]. *)
Lemma rejectOrder_frame_witness :
  let s := run Sample.math
             [ReturnHome; Tick Sample.draws; Tick Sample.draws;
              Tick Sample.draws] Sample.flying in
  let s' := rejectOrder "ORD-4821" s in
  mission s' = mission s
  /\ id_truthy (activeMissionOrderId s') = true
  /\ orders (tick Sample.math Sample.draws s') = orders s'
  /\ activeMissionOrderId (tick Sample.math Sample.draws s') = None.
Proof.
  intros s s'.
  destruct (rejectOrder_frame Sample.math "ORD-4821" s)
    as (_ & Hm & _ & _ & Hflight).
  fold s' in Hm, Hflight.
  assert (Hid : activeMissionOrderId s = Some "ORD-4821"%string).
  { vm_compute. reflexivity. }
  assert (Hactive : id_truthy (activeMissionOrderId s) = true).
  { vm_compute. reflexivity. }
  destruct (Hflight Hid Hactive) as (Hstill & Htick).
  destruct (Htick Sample.draws) as (Hord & Hdone).
  assert (Hge : 100 <= Mission.progress (mission s) + 1.5).
  { apply Qle_bool_iff. vm_compute. reflexivity. }
  destruct (Hdone Hge) as (Hnone & _).
  split; [exact Hm|]. split; [exact Hstill|].
  split; [exact Hord | exact Hnone].
Defined.

(** * Further properties of the engine *)

(** ** Invariants of the reachable states *)

Section ReachableInvariants.
Context (M : MathLib).

(** A property of the initial state that every valid command keeps holds
    in every reachable state. *)
Lemma reachable_invariant (P : State -> Prop) :
  P initialState ->
  (forall c s, valid_command c = true -> P s -> P (exec M c s)) ->
  forall s, reachable M s -> P s.
Proof.
  intros Hinit Hstep s Hs. induction Hs as [|c s _ IH Hc]; auto.
Qed.

(** The satellite jitter [Math.round((Math.random() - 0.5) * 1)] is 0 for
    every draw. *)
Lemma satellites_jitter_zero r :
  valid_draw r = true -> Math_round ((r - 0.5) * 1) == 0.
Proof.
  intros H. apply valid_draw_bounds in H as [H0 H1]. unfold Math_round.
  assert (Eh : 1 / 2 == 0.5) by reflexivity.
  assert (E : Qfloor ((r - 0.5) * 1 + 1 / 2) = 0%Z); [|rewrite E; reflexivity].
  assert (Hlo : (0 <= Qfloor ((r - 0.5) * 1 + 1 / 2))%Z).
  { change (Qfloor 0 <= Qfloor ((r - 0.5) * 1 + 1 / 2))%Z.
    apply Qfloor_resp_le. lra. }
  assert (Hhi : (Qfloor ((r - 0.5) * 1 + 1 / 2) < 1)%Z).
  { rewrite Zlt_Qlt.
    apply Qle_lt_trans with ((r - 0.5) * 1 + 1 / 2); [apply Qfloor_le|].
    change (inject_Z 1) with 1. lra. }
  lia.
Qed.

Lemma drain_aircraft_ok d a :
  valid_draw (satellitesDraw d) = true ->
  aircraft_ok a -> aircraft_ok (drain d a).
Proof.
  intros Hd (Hb0 & Hb87 & Hs85 & Hs100 & Hsat & Hmax & Hmode & Hst & Hpay).
  unfold aircraft_ok, drain.
  cbn [Aircraft.battery Aircraft.signal Aircraft.satellites
       Aircraft.maxPayload Aircraft.mode Aircraft.status
       Aircraft.payloadWeight].
  pose proof (satellites_jitter_zero _ Hd) as Hj.
  set (j := Math_round ((satellitesDraw d - 0.5) * 1)) in *.
  set (x := Aircraft.signal a + (signalDraw d - 0.5) * 2).
  destruct (Math_max_cases 0 (Aircraft.battery a - 0.08)) as [[? Eb] | [? Eb]];
  destruct (Math_max_cases 85 x) as [[? Em] | [? Em]];
  destruct (Math_min_cases 100 (Math_max 85 x)) as [[? Es] | [? Es]];
  destruct (Math_min_cases 14 (Aircraft.satellites a + j)) as [[? En] | [? En]];
  destruct (Math_max_cases 8 (Math_min 14 (Aircraft.satellites a + j)))
    as [[? Ek] | [? Ek]];
  rewrite ?Eb, ?Es, ?Ek, ?En, ?Em in *;
  repeat split; auto; lra.
Qed.

Lemma land_aircraft_ok a : aircraft_ok a -> aircraft_ok (land a).
Proof.
  intros (Hb0 & Hb87 & Hs85 & Hs100 & Hsat & Hmax & Hmode & Hst & Hpay).
  unfold aircraft_ok, land. cbn. repeat split; auto.
Qed.

Lemma exec_aircraft_ok c s :
  valid_command c = true ->
  aircraft_ok (aircraft s) -> aircraft_ok (aircraft (exec M c s)).
Proof.
  intros Hc H.
  destruct c as [i | i | o | i | | | | d]; cbn [exec].
  - exact H.
  - exact H.
  - exact H.
  - unfold startMission.
    repeat match goal with
           | |- context [match ?x with _ => _ end] => destruct x
           end; auto.
    destruct H as (Hb0 & Hb87 & Hs85 & Hs100 & Hsat & Hmax & Hmode & Hst & Hpay).
    unfold aircraft_ok, launch. cbn [aircraft Aircraft.battery Aircraft.signal
      Aircraft.satellites Aircraft.maxPayload Aircraft.mode Aircraft.status
      Aircraft.payloadWeight].
    repeat split; auto. intros Habs. discriminate Habs.
  - unfold emergencyStop. destruct (negb _); auto.
    destruct H as (Hb0 & Hb87 & Hs85 & Hs100 & Hsat & Hmax & Hmode & Hst & Hpay).
    unfold aircraft_ok. cbn [aircraft Aircraft.battery Aircraft.signal
      Aircraft.satellites Aircraft.maxPayload Aircraft.mode Aircraft.status
      Aircraft.payloadWeight].
    repeat split; auto.
  - unfold returnHome. destruct (negb _); auto.
  - destruct H as (Hb0 & Hb87 & Hs85 & Hs100 & Hsat & Hmax & Hmode & Hst & Hpay).
    unfold aircraft_ok, toggleCamera. cbv zeta. cbn [aircraft Aircraft.battery
      Aircraft.signal Aircraft.satellites Aircraft.maxPayload Aircraft.mode
      Aircraft.status Aircraft.payloadWeight].
    repeat split; auto.
  - cbn in Hc. apply andb_prop in Hc as [_ Hc].
    unfold tick. destruct (negb _); auto.
    destruct (Qle_bool 100 _); cbn [aircraft];
      auto using drain_aircraft_ok, land_aircraft_ok.
Qed.

Lemma reachable_aircraft_ok s : reachable M s -> aircraft_ok (aircraft s).
Proof.
  apply (reachable_invariant (fun s => aircraft_ok (aircraft s))).
  - unfold aircraft_ok. cbn. repeat split; auto; lra.
  - apply exec_aircraft_ok.
Qed.

Lemma integer_succ e :
  inject_Z (Qfloor e) == e -> inject_Z (Qfloor (e + 1)) == e + 1.
Proof.
  intros H.
  assert (E : e + 1 == inject_Z (Qfloor e + 1)).
  { rewrite inject_Z_plus, H. reflexivity. }
  rewrite E at 1. rewrite Qfloor_Z. symmetry. exact E.
Qed.

Lemma tick_mission_ok d s :
  progress_bounded s -> mission_ok (mission s) ->
  mission_ok (mission (tick M d s)).
Proof.
  intros [Hp0 Hp100] (Hr0 & Hr1 & He0 & Hint & Hroute).
  unfold tick. destruct (negb _); [repeat split; assumption|].
  set (np := Math_min (Mission.progress (mission s) + 1.5) 100).
  assert (Hnp : 0 <= np /\ np <= 100).
  { subst np.
    destruct (Math_min_cases (Mission.progress (mission s) + 1.5) 100)
      as [[? ->] | [? ->]]; lra. }
  destruct (Qle_bool 100 np); unfold mission_ok;
    cbn [mission Mission.routeProgress Mission.elapsed Mission.route].
  - repeat split; try assumption; lra.
  - split; [|split; [|split; [|split]]]; try assumption.
    + apply Qle_shift_div_l; lra.
    + apply Qle_shift_div_r; lra.
    + lra.
    + apply integer_succ. exact Hint.
Qed.

Lemma startMission_mission_ok orderId s :
  mission_ok (mission s) -> mission_ok (mission (startMission M orderId s)).
Proof.
  intros H. unfold startMission.
  destruct (List.find _ _) as [order|]; [|exact H].
  destruct (negb _); [exact H|].
  destruct (id_truthy _); [exact H|].
  destruct (locationCoordinates !! Order.pickup order) as [P|] eqn:HP;
    [|exact H].
  destruct (locationCoordinates !! Order.delivery order) as [D|] eqn:HD;
    [|exact H].
  unfold mission_ok, launch.
  cbn [mission Mission.routeProgress Mission.elapsed Mission.route].
  split; [lra|]. split; [lra|]. split; [lra|]. split; [reflexivity|].
  right. exists (Order.pickup order), (Order.delivery order), P, D. auto.
Qed.

Lemma exec_mission_ok c s :
  progress_bounded s -> mission_ok (mission s) ->
  mission_ok (mission (exec M c s)).
Proof.
  intros Hp H.
  destruct c as [i | i | o | i | | | | d]; cbn [exec].
  - exact H.
  - exact H.
  - exact H.
  - apply startMission_mission_ok, H.
  - unfold emergencyStop. destruct (negb _); [exact H|].
    unfold mission_ok, initialMission.
    cbn [mission Mission.routeProgress Mission.elapsed Mission.route].
    split; [lra|]. split; [lra|]. split; [lra|]. split; [reflexivity|].
    left. reflexivity.
  - unfold returnHome. destruct (negb _); exact H.
  - exact H.
  - apply tick_mission_ok; assumption.
Qed.

Lemma reachable_mission_ok s : reachable M s -> mission_ok (mission s).
Proof.
  induction 1 as [|c s Hs IH Hc].
  - unfold mission_ok, initialState. cbn [mission]. unfold initialMission.
    cbn [Mission.routeProgress Mission.elapsed Mission.route].
    split; [lra|]. split; [lra|]. split; [lra|]. split; [reflexivity|].
    left. reflexivity.
  - apply exec_mission_ok; [|exact IH].
    apply reachable_progress_bounded with (M := M). exact Hs.
Qed.

End ReachableInvariants.

(** ** The aircraft over a whole session *)

Section AircraftSession.
Context (M : MathLib).

(** A command leaves the battery alone or drains it once. *)
Lemma exec_battery c s :
  Aircraft.battery (aircraft (exec M c s)) = Aircraft.battery (aircraft s)
  \/ Aircraft.battery (aircraft (exec M c s))
     = Math_max 0 (Aircraft.battery (aircraft s) - 0.08).
Proof.
  destruct c as [i | i | o | i | | | | d]; cbn [exec]; auto.
  - unfold startMission.
    repeat match goal with
           | |- context [match ?x with _ => _ end] => destruct x
           end; auto.
  - unfold emergencyStop. destruct (negb _); auto.
  - unfold returnHome. destruct (negb _); auto.
  - unfold tick. destruct (negb _); auto.
    destruct (Qle_bool 100 _); right; reflexivity.
Qed.

End AircraftSession.

(** X1. The battery is never recharged and never negative: from a
    reachable state, every command or tick leaves the battery where it
    was or lower, at 0 or above, and at most at the initial 87. *)
Theorem battery_never_recharges (M : MathLib) (c : Command) (s : State) :
  reachable M s ->
  valid_command c = true ->
  0 <= Aircraft.battery (aircraft (exec M c s))
  /\ Aircraft.battery (aircraft (exec M c s)) <= Aircraft.battery (aircraft s)
  /\ Aircraft.battery (aircraft s) <= 87.
Proof.
  intros Hs Hc.
  destruct (reachable_aircraft_ok M s Hs) as (Hb0 & Hb87 & _).
  destruct (exec_battery M c s) as [-> | ->]; [lra|].
  destruct (Math_max_cases 0 (Aircraft.battery (aircraft s) - 0.08))
    as [[? ->] | [? ->]]; lra.
Qed.

(** One tick into the flight of [ORD-4821]. *)
Lemma battery_never_recharges_witness :
  let s := Sample.flying in
  0 <= Aircraft.battery (aircraft (tick Sample.math Sample.draws s))
  /\ Aircraft.battery (aircraft (tick Sample.math Sample.draws s))
     <= Aircraft.battery (aircraft s).
Proof.
  intros s.
  assert (Hs : reachable Sample.math s).
  { apply (reachable_run Sample.math
             [ApproveOrder "ORD-4821"; StartMission "ORD-4821"]).
    reflexivity. }
  destruct (battery_never_recharges Sample.math (Tick Sample.draws) s Hs
              eq_refl) as (H0 & Hle & _).
  split; [exact H0 | exact Hle].
Defined.

(** X2. The signal stays between 85 and 100 in every reachable state, so
    the signal indicator of the aircraft panel is always [normal]: the
    thresholds 80 and 50 are never crossed. *)
Theorem signal_always_normal (M : MathLib) (s : State) :
  reachable M s ->
  85 <= Aircraft.signal (aircraft s)
  /\ Aircraft.signal (aircraft s) <= 100
  /\ signalStatus (aircraft s) = normal.
Proof.
  intros Hs.
  destruct (reachable_aircraft_ok M s Hs) as (_ & _ & H85 & H100 & _).
  split; [exact H85|]. split; [exact H100|].
  unfold signalStatus, Qgt_bool.
  destruct (Qle_bool (Aircraft.signal (aircraft s)) 80) eqn:E; [|reflexivity].
  apply Qle_bool_iff in E. lra.
Qed.

(** Two ticks with the lowest signal draw. *)
Lemma signal_always_normal_witness :
  let s := run Sample.math
             [Tick {| speedDraw := 0; signalDraw := 0; satellitesDraw := 0 |};
              Tick {| speedDraw := 0; signalDraw := 0; satellitesDraw := 0 |}]
             Sample.flying in
  85 <= Aircraft.signal (aircraft s)
  /\ signalStatus (aircraft s) = normal.
Proof.
  intros s.
  assert (Hs : reachable Sample.math s).
  { apply (reachable_run Sample.math
             [ApproveOrder "ORD-4821"; StartMission "ORD-4821";
              Tick {| speedDraw := 0; signalDraw := 0; satellitesDraw := 0 |};
              Tick {| speedDraw := 0; signalDraw := 0; satellitesDraw := 0 |}]).
    reflexivity. }
  destruct (signal_always_normal Sample.math s Hs) as (H85 & _ & Hn).
  split; [exact H85 | exact Hn].
Defined.

(** X3. The satellite count never moves: the jitter
    [Math.round((Math.random() - 0.5) * 1)] rounds to 0 for every draw
    in [0, 1), so every reachable state shows the initial 12. *)
Theorem satellites_never_change (M : MathLib) (s : State) :
  reachable M s -> Aircraft.satellites (aircraft s) == 12.
Proof.
  intros Hs.
  destruct (reachable_aircraft_ok M s Hs) as (_ & _ & _ & _ & Hsat & _).
  exact Hsat.
Qed.

(** A tick with the highest satellite draw short of 1. *)
Lemma satellites_never_change_witness :
  Aircraft.satellites
    (aircraft
       (run Sample.math
          [Tick {| speedDraw := 0; signalDraw := 0; satellitesDraw := 0.999 |}]
          Sample.flying))
  == 12.
Proof.
  apply (satellites_never_change Sample.math).
  apply (reachable_run Sample.math
           [ApproveOrder "ORD-4821"; StartMission "ORD-4821";
            Tick {| speedDraw := 0; signalDraw := 0;
                    satellitesDraw := 0.999 |}]).
  reflexivity.
Defined.

(** X4. In every reachable state the aircraft is [Idle] or [InFlight],
    never [Landing] or [Charging], and an idle aircraft carries no
    payload. *)
Theorem idle_aircraft_is_empty (M : MathLib) (s : State) :
  reachable M s ->
  (Aircraft.status (aircraft s) = Idle
   \/ Aircraft.status (aircraft s) = InFlight)
  /\ (Aircraft.status (aircraft s) <> InFlight ->
      Aircraft.payloadWeight (aircraft s) = Num 0).
Proof.
  intros Hs.
  destruct (reachable_aircraft_ok M s Hs)
    as (_ & _ & _ & _ & _ & _ & _ & Hst & Hpay).
  split; [exact Hst|]. intros Hn. apply Hpay. tauto.
Qed.

(** The flight of [ORD-4821] stopped in an emergency. *)
Lemma idle_aircraft_is_empty_witness :
  let s := emergencyStop Sample.flying in
  Aircraft.status (aircraft s) = Idle
  /\ Aircraft.payloadWeight (aircraft s) = Num 0.
Proof.
  intros s.
  assert (Hs : reachable Sample.math s).
  { apply (reachable_run Sample.math
             [ApproveOrder "ORD-4821"; StartMission "ORD-4821";
              EmergencyStop]).
    reflexivity. }
  destruct (idle_aircraft_is_empty Sample.math s Hs) as (_ & Hpay).
  split; [reflexivity|]. apply Hpay. discriminate.
Defined.

(** ** The aircraft marker on the map *)

Lemma Qfloor_unique x z :
  inject_Z z <= x -> x < inject_Z z + 1 -> Qfloor x = z.
Proof.
  intros Hlo Hhi.
  assert (H1 : (z <= Qfloor x)%Z).
  { rewrite <- (Qfloor_Z z). apply Qfloor_resp_le. exact Hlo. }
  assert (H2 : (Qfloor x < z + 1)%Z).
  { rewrite Zlt_Qlt. rewrite inject_Z_plus. change (inject_Z 1) with 1.
    apply Qle_lt_trans with x; [apply Qfloor_le | exact Hhi]. }
  lia.
Qed.

Lemma Qfloor_bounds x : inject_Z (Qfloor x) <= x /\ x < inject_Z (Qfloor x) + 1.
Proof.
  split; [apply Qfloor_le|].
  pose proof (Qlt_floor x) as H. rewrite inject_Z_plus in H.
  change (inject_Z 1) with 1 in H. exact H.
Qed.


Lemma at_index_in_range {A : Type} (a : list A) (i : Z) :
  (0 <= i < Z.of_nat (length a))%Z ->
  exists v, at_index a i = Some v /\ nth_error a (Z.to_nat i) = Some v.
Proof.
  intros Hi. unfold at_index.
  destruct (Z.ltb_spec i 0); [lia|].
  destruct (nth_error a (Z.to_nat i)) as [v|] eqn:E; [eauto|].
  apply nth_error_None in E. lia.
Qed.

Lemma at_index_negative {A : Type} (a : list A) (i : Z) :
  (i < 0)%Z -> at_index a i = None.
Proof.
  intros Hi. unfold at_index. destruct (Z.ltb_spec i 0); [reflexivity | lia].
Qed.

Section Marker.
Context (P D : Coord) (numPoints : nat).
Hypothesis numPoints_pos : (0 < numPoints)%nat.


End Marker.



(** X6. [getPositionAlongRoute] at the edges.  An empty route gives
    [(0, 0)] and a route of one point gives that point, whatever the
    progress.  On a route of two points or more, a negative progress
    reads before the start of the route and fails, any other progress
    gives a position, and a progress of 1 or more gives the last point. *)
Theorem getPositionAlongRoute_edges (route : list (Q * Q)) (progress : Q) :
  (route = [] -> getPositionAlongRoute route progress = Some (0, 0))
  /\ (forall pt, route = [pt] ->
                 getPositionAlongRoute route progress = Some pt)
  /\ ((2 <= length route)%nat ->
      (progress < 0 -> getPositionAlongRoute route progress = None)
      /\ (0 <= progress ->
          exists pos, getPositionAlongRoute route progress = Some pos)
      /\ (1 <= progress ->
          exists pos final,
            getPositionAlongRoute route progress = Some pos
            /\ nth_error route (length route - 1) = Some final
            /\ fst pos == fst final /\ snd pos == snd final)).
Proof.
  split; [intros ->; reflexivity|].
  split; [intros pt ->; reflexivity|].
  intros Hlen. unfold getPositionAlongRoute.
  destruct (Nat.ltb_spec (length route) 2) as [Hlt|_]; [lia|].
  set (final := (Z.of_nat (length route) - 1)%Z).
  assert (Hfinal : 1 <= inject_Z final).
  { change 1 with (inject_Z 1). rewrite <- Zle_Qle. subst final. lia. }
  set (k := Qfloor (progress * inject_Z final)).
  destruct (Qfloor_bounds (progress * inject_Z final)) as [Hlo Hhi].
  fold k in Hlo, Hhi.
  split; [|split].
  - intros Hneg.
    assert (Hk : (k < 0)%Z).
    { rewrite Zlt_Qlt. change (inject_Z 0) with 0. nra. }
    rewrite (Z.min_l k) by lia.
    rewrite (at_index_negative route k Hk). reflexivity.
  - intros Hpos.
    assert (Hk : (0 <= k)%Z).
    { subst k. change 0%Z with (Qfloor 0) at 1. apply Qfloor_resp_le. nra. }
    destruct (at_index_in_range route (Z.min k final)) as (a & -> & _);
      [subst final; lia|].
    destruct (at_index_in_range route (Z.min (k + 1) final)) as (b & -> & _);
      [subst final; lia|].
    eauto.
  - intros Hfull.
    assert (Hk : (final <= k)%Z).
    { subst k. rewrite <- (Qfloor_Z final) at 1. apply Qfloor_resp_le. nra. }
    rewrite (Z.min_r k) by lia. rewrite (Z.min_r (k + 1)) by lia.
    destruct (at_index_in_range route final) as (a & -> & Hnth);
      [subst final; lia|].
    exists (fst a + (fst a - fst a) * js_rem (progress * inject_Z final) 1,
            snd a + (snd a - snd a) * js_rem (progress * inject_Z final) 1), a.
    split; [reflexivity|]. split.
    + rewrite <- Hnth. f_equal. subst final. lia.
    + cbn [fst snd]. split; ring.
Qed.

(** A route of three points, before, on and past its ends. *)
Lemma getPositionAlongRoute_edges_witness :
  let route := [(0, 0); (10, 20); (20, 0)] in
  getPositionAlongRoute [] 0.5 = Some (0, 0)
  /\ getPositionAlongRoute [(1, 2)] 0.5 = Some (1, 2)
  /\ getPositionAlongRoute route (-0.1) = None
  /\ (exists pos, getPositionAlongRoute route 0.75 = Some pos)
  /\ (exists pos, getPositionAlongRoute route 1.7 = Some pos
                  /\ fst pos == 20 /\ snd pos == 0).
Proof.
  intros route.
  split; [apply (proj1 (getPositionAlongRoute_edges [] 0.5)); reflexivity|].
  split; [apply (proj1 (proj2 (getPositionAlongRoute_edges [(1, 2)] 0.5)));
          reflexivity|].
  assert (Hlen : (2 <= length route)%nat) by (cbn; lia).
  split.
  - apply (proj2 (proj2 (getPositionAlongRoute_edges route (-0.1))) Hlen).
    reflexivity.
  - split.
    + apply (proj2 (proj2 (getPositionAlongRoute_edges route 0.75)) Hlen).
      discriminate.
    + destruct (proj2 (proj2 (getPositionAlongRoute_edges route 1.7)) Hlen)
        as (_ & _ & Hpast).
      destruct Hpast as (pos & final & Hpos & Hfinal & Hx & Hy);
        [discriminate|].
      exists pos. split; [exact Hpos|].
      cbn in Hfinal. injection Hfinal as <-. auto.
Defined.

(** ** The length of a mission *)

Section Duration.
Context (M : MathLib).

(** A tick that does not complete the mission also adds one second. *)
Lemma tick_running_elapsed d s :
  id_truthy (activeMissionOrderId s) = true ->
  Mission.progress (mission s) + 1.5 < 100 ->
  Mission.elapsed (mission (tick M d s)) = Mission.elapsed (mission s) + 1.
Proof.
  intros Hactive Hlt. unfold tick. rewrite Hactive. cbn [negb].
  set (np := Math_min (Mission.progress (mission s) + 1.5) 100).
  assert (Hnp : np == Mission.progress (mission s) + 1.5).
  { subst np.
    destruct (Math_min_cases (Mission.progress (mission s) + 1.5) 100)
      as [[? E] | [? E]]; [exact E | lra]. }
  destruct (Qle_bool 100 np) eqn:E.
  - apply Qle_bool_iff in E. lra.
  - reflexivity.
Qed.

(** The tick that completes the mission does not. *)
Lemma tick_completing_elapsed d s :
  id_truthy (activeMissionOrderId s) = true ->
  100 <= Mission.progress (mission s) + 1.5 ->
  Mission.elapsed (mission (tick M d s)) = Mission.elapsed (mission s).
Proof.
  intros Hactive Hge.
  destruct (tick_completing M d s Hactive Hge) as [_ Hp].
  revert Hp. unfold tick. rewrite Hactive. cbn [negb].
  destruct (Qle_bool 100 _) eqn:E; cbn [mission Mission.progress
                                        Mission.elapsed]; [reflexivity|].
  intros Hp. exfalso.
  assert (Hle : 100 <= Math_min (Mission.progress (mission s) + 1.5) 100)
    by (rewrite Hp; lra).
  apply Qle_bool_iff in Hle. congruence.
Qed.

(** As long as the progress stays below 100, a run of ticks adds 1.5 and
    one second per tick and touches neither the active id nor the
    orders. *)
Lemma ticks_running ds : forall s,
  id_truthy (activeMissionOrderId s) = true ->
  Mission.progress (mission s) + 1.5 * Q_of_nat (length ds) < 100 ->
  activeMissionOrderId (ticks M ds s) = activeMissionOrderId s
  /\ orders (ticks M ds s) = orders s
  /\ Mission.progress (mission (ticks M ds s))
     == Mission.progress (mission s) + 1.5 * Q_of_nat (length ds)
  /\ Mission.elapsed (mission (ticks M ds s))
     == Mission.elapsed (mission s) + Q_of_nat (length ds).
Proof.
  induction ds as [|d ds IH]; intros s Hactive Hlt.
  - cbn [ticks fold_left length]. change (Q_of_nat 0) with 0.
    repeat split; try reflexivity; ring.
  - assert (Hsucc : Q_of_nat (length (d :: ds)) == Q_of_nat (length ds) + 1).
    { unfold Q_of_nat. cbn [length]. rewrite Nat2Z.inj_succ.
      unfold Z.succ. rewrite inject_Z_plus. reflexivity. }
    assert (Hpos : 0 <= Q_of_nat (length ds)).
    { unfold Q_of_nat. change 0 with (inject_Z 0). rewrite <- Zle_Qle. lia. }
    rewrite Hsucc in Hlt.
    destruct (tick_running M d s Hactive) as (Hid & Hord & Hprog); [lra|].
    pose proof (tick_running_elapsed d s Hactive) as Hel.
    change (ticks M (d :: ds) s) with (ticks M ds (tick M d s)).
    destruct (IH (tick M d s)) as (Hid' & Hord' & Hprog' & Hel').
    + congruence.
    + rewrite Hprog. lra.
    + rewrite Hsucc, Hid', Hord', Hprog', Hel', Hid, Hord, Hprog, Hel by lra.
      repeat split; try reflexivity; ring.
Qed.

End Duration.

(** X7. A mission lasts 67 ticks whatever its distance.  From an active
    mission at progress 0, any 66 ticks leave it active at progress 99
    with the orders untouched and 66 seconds elapsed; the next tick
    completes it, and does not count a 67th second. *)
Theorem mission_completes_on_tick_67 (M : MathLib) (s : State)
    (ds : list Draws) (d : Draws) :
  id_truthy (activeMissionOrderId s) = true ->
  Mission.progress (mission s) == 0 ->
  length ds = 66%nat ->
  let s66 := ticks M ds s in
  let s67 := tick M d s66 in
  activeMissionOrderId s66 = activeMissionOrderId s
  /\ orders s66 = orders s
  /\ Mission.progress (mission s66) == 99
  /\ Mission.elapsed (mission s66) == Mission.elapsed (mission s) + 66
  /\ activeMissionOrderId s67 = None
  /\ Mission.progress (mission s67) = 100
  /\ Mission.elapsed (mission s67) == Mission.elapsed (mission s) + 66.
Proof.
  intros Hactive Hzero Hlen s66 s67.
  assert (H66 : Q_of_nat (length ds) == 66) by (rewrite Hlen; reflexivity).
  destruct (ticks_running M ds s Hactive) as (Hid & Hord & Hprog & Hel).
  { rewrite H66, Hzero. reflexivity. }
  fold s66 in Hid, Hord, Hprog, Hel.
  rewrite H66 in Hprog, Hel. rewrite Hzero in Hprog.
  assert (Hactive66 : id_truthy (activeMissionOrderId s66) = true)
    by congruence.
  assert (Hge : 100 <= Mission.progress (mission s66) + 1.5)
    by (rewrite Hprog; discriminate).
  destruct (tick_completing M d s66 Hactive66 Hge) as (Hnone & Hfull).
  pose proof (tick_completing_elapsed M d s66 Hactive66 Hge) as Hel67.
  fold s67 in Hnone, Hfull, Hel67.
  split; [exact Hid|]. split; [exact Hord|].
  split; [rewrite Hprog; reflexivity|]. split; [exact Hel|].
  split; [exact Hnone|]. split; [exact Hfull|].
  rewrite Hel67. exact Hel.
Qed.

(** The flight of [ORD-4821], 66 ticks and one more. *)
Lemma mission_completes_on_tick_67_witness :
  let s66 := ticks Sample.math (repeat Sample.draws 66) Sample.flying in
  activeMissionOrderId s66 = Some "ORD-4821"%string
  /\ Mission.progress (mission s66) == 99
  /\ activeMissionOrderId (tick Sample.math Sample.draws s66) = None.
Proof.
  intros s66.
  destruct (mission_completes_on_tick_67 Sample.math Sample.flying
              (repeat Sample.draws 66) Sample.draws)
    as (Hid & _ & Hprog & _ & Hnone & _).
  - reflexivity.
  - reflexivity.
  - reflexivity.
  - fold s66 in Hid, Hprog, Hnone.
    split; [exact Hid|]. split; [exact Hprog | exact Hnone].
Defined.

(** ** How the commands compose *)

(** [find] after [set_status]: the same order, with the new status. *)
Lemma find_set_status orderId st os :
  List.find (has_id orderId) (set_status orderId st os)
  = option_map (Order.with_status st) (List.find (has_id orderId) os).
Proof.
  unfold set_status, has_id.
  induction os as [|o os IH]; cbn [List.map List.find]; [reflexivity|].
  destruct (String.eqb (Order.id o) orderId) eqn:E.
  - cbn [Order.with_status Order.id]. rewrite E. reflexivity.
  - rewrite E. exact IH.
Qed.

(** The later of two status updates for one id wins. *)
Lemma set_status_twice orderId st st' os :
  set_status orderId st' (set_status orderId st os)
  = set_status orderId st' os.
Proof.
  unfold set_status, has_id.
  induction os as [|o os IH]; cbn [List.map]; [reflexivity|].
  rewrite IH. f_equal.
  destruct (String.eqb (Order.id o) orderId) eqn:E.
  - cbn [Order.with_status Order.id]. rewrite E. reflexivity.
  - rewrite E. reflexivity.
Qed.

(** Setting a status other than [Approved] on the orders of an id makes
    [startMission] for that id give up. *)
Lemma startMission_after_set_status (M : MathLib) orderId st os a m active :
  st <> Approved ->
  startMission M orderId (mkState (set_status orderId st os) a m active)
  = mkState (set_status orderId st os) a m active.
Proof.
  intros Hst. unfold startMission. cbn [orders].
  rewrite find_set_status.
  destruct (List.find (has_id orderId) os) as [o|]; cbn [option_map];
    [|reflexivity].
  cbn [Order.with_status Order.status].
  destruct st; try reflexivity. congruence.
Qed.

(** X8. Approving and then starting an order launches it: when no
    mission is active and the first order with the id names two places of
    the table, [startMission] after [approveOrder] makes it the active
    mission, puts the aircraft in flight on the route between the two
    places, and leaves every order of that id in flight, whatever the
    status of the order was before the approval. *)
Theorem approve_then_start_launches (M : MathLib) (orderId : string)
    (s : State) (order : Order.t) (P D : Coord) :
  List.find (has_id orderId) (orders s) = Some order ->
  id_truthy (activeMissionOrderId s) = false ->
  locationCoordinates !! Order.pickup order = Some P ->
  locationCoordinates !! Order.delivery order = Some D ->
  let s' := startMission M orderId (approveOrder orderId s) in
  activeMissionOrderId s' = Some orderId
  /\ Aircraft.status (aircraft s') = InFlight
  /\ Mission.route (mission s') = generateAerialRoute P D 50
  /\ status_set orderId OrderInFlight (orders s) (orders s').
Proof.
  intros Hfind Hidle HP HD.
  unfold startMission, approveOrder.
  cbn [orders activeMissionOrderId aircraft mission].
  rewrite find_set_status, Hfind. cbn [option_map].
  cbn [Order.with_status Order.status Order.pickup Order.delivery
       is_approved negb].
  rewrite Hidle, HP, HD. unfold launch.
  cbn [orders activeMissionOrderId aircraft mission Aircraft.status
       Mission.route].
  repeat (split; [reflexivity|]).
  rewrite set_status_twice. apply set_status_spec.
Qed.

(** Every seed order can be flown this way; here [ORD-4823]. *)
Lemma approve_then_start_launches_witness :
  let s' := startMission Sample.math "ORD-4823"
              (approveOrder "ORD-4823" initialState) in
  activeMissionOrderId s' = Some "ORD-4823"%string
  /\ Aircraft.status (aircraft s') = InFlight.
Proof.
  intros s'.
  destruct (approve_then_start_launches Sample.math "ORD-4823" initialState
              (Order.mk "ORD-4823" "Food Package" "3.1 kg" "Kitchen Hub"
                        "Residential Zone E" Pending)
              {| lat := 13.0475; lng := 80.2090 |}
              {| lat := 13.1067; lng := 80.2206 |}
              eq_refl eq_refl eq_refl eq_refl)
    as (Hid & Hfly & _).
  split; [exact Hid | exact Hfly].
Defined.

(** X9. A mission that was stopped or completed cannot be started again
    as it is: after [emergencyStop] the orders of the mission are
    [Pending], after the completing tick they are [Delivered], and
    [startMission] for the same id changes nothing. *)
Theorem ended_mission_needs_approval (M : MathLib) (orderId : string)
    (s : State) :
  activeMissionOrderId s = Some orderId ->
  id_truthy (activeMissionOrderId s) = true ->
  startMission M orderId (emergencyStop s) = emergencyStop s
  /\ (forall d,
        100 <= Mission.progress (mission s) + 1.5 ->
        startMission M orderId (tick M d s) = tick M d s).
Proof.
  intros Hid Hactive. split.
  - unfold emergencyStop. rewrite Hactive, Hid. cbn [negb set_status_of].
    apply startMission_after_set_status. discriminate.
  - intros d Hge. unfold tick. rewrite Hactive. cbn [negb].
    set (np := Math_min (Mission.progress (mission s) + 1.5) 100).
    assert (Hnp : np == 100).
    { subst np.
      destruct (Math_min_cases (Mission.progress (mission s) + 1.5) 100)
        as [[? E] | [? E]]; [lra | exact E]. }
    destruct (Qle_bool 100 np) eqn:E.
    + rewrite Hid. cbn [set_status_of].
      apply startMission_after_set_status. discriminate.
    + assert (Hle : 100 <= np) by lra.
      apply Qle_bool_iff in Hle. congruence.
Qed.

(** The flight of [ORD-4821] stopped in an emergency. *)
Lemma ended_mission_needs_approval_witness :
  startMission Sample.math "ORD-4821" (emergencyStop Sample.flying)
  = emergencyStop Sample.flying.
Proof.
  apply (proj1 (ended_mission_needs_approval Sample.math "ORD-4821"
                  Sample.flying eq_refl eq_refl)).
Defined.

(** X10. An order whose id is the empty string can be launched but its
    mission is never seen as active, the empty string being falsy: the
    aircraft is put in flight, and then no tick runs, and
    [emergencyStop] and [returnHome] do nothing. *)
Theorem empty_id_mission_is_stuck (M : MathLib) (s : State)
    (order : Order.t) (P D : Coord) :
  List.find (has_id "") (orders s) = Some order ->
  Order.status order = Approved ->
  id_truthy (activeMissionOrderId s) = false ->
  locationCoordinates !! Order.pickup order = Some P ->
  locationCoordinates !! Order.delivery order = Some D ->
  let s' := startMission M "" s in
  activeMissionOrderId s' = Some ""%string
  /\ Aircraft.status (aircraft s') = InFlight
  /\ (forall d, tick M d s' = s')
  /\ emergencyStop s' = s'
  /\ returnHome s' = s'.
Proof.
  intros Hfind Hst Hidle HP HD.
  unfold startMission. rewrite Hfind, Hst, Hidle, HP, HD.
  cbn [is_approved negb]. unfold launch.
  split; [reflexivity|]. split; [reflexivity|].
  split; [intros d; reflexivity|]. split; reflexivity.
Qed.

(** An approved order without an id, added to the seed orders. *)
Lemma empty_id_mission_is_stuck_witness :
  let s := addOrder (Order.mk "" "Parcel" "1 kg" "Depot C" "HQ Tower"
                              Approved) initialState in
  let s' := startMission Sample.math "" s in
  Aircraft.status (aircraft s') = InFlight
  /\ tick Sample.math Sample.draws s' = s'
  /\ emergencyStop s' = s'.
Proof.
  intros s s'.
  destruct (empty_id_mission_is_stuck Sample.math s
              (Order.mk "" "Parcel" "1 kg" "Depot C" "HQ Tower" Approved)
              {| lat := 13.0878; lng := 80.2785 |}
              {| lat := 13.0843; lng := 80.2705 |}
              eq_refl eq_refl eq_refl eq_refl eq_refl)
    as (_ & Hfly & Htick & Hstop & _).
  split; [exact Hfly|]. split; [apply Htick | exact Hstop].
Defined.

(** ** The order and camera commands *)

(** X11. [toggleCamera] flips the camera flag and nothing else, and two
    calls in a row give the state back. *)
Theorem toggleCamera_involutive (s : State) :
  toggleCamera (toggleCamera s) = s
  /\ Aircraft.cameraActive (aircraft (toggleCamera s))
     = negb (Aircraft.cameraActive (aircraft s))
  /\ orders (toggleCamera s) = orders s
  /\ mission (toggleCamera s) = mission s
  /\ activeMissionOrderId (toggleCamera s) = activeMissionOrderId s
  /\ Aircraft.status (aircraft (toggleCamera s)) = Aircraft.status (aircraft s)
  /\ Aircraft.payloadWeight (aircraft (toggleCamera s))
     = Aircraft.payloadWeight (aircraft s)
  /\ Aircraft.battery (aircraft (toggleCamera s))
     = Aircraft.battery (aircraft s).
Proof.
  split; [|repeat split].
  destruct s as [os a m active]. destruct a. unfold toggleCamera.
  cbn. rewrite negb_involutive. reflexivity.
Qed.

(** X12. [approveOrder] has no status guard and no existence check: it
    sets every order of the id to [Approved] whatever its status
    (delivered and in-flight orders included) and leaves the other orders,
    the aircraft, the mission and the active id alone; a second call
    changes nothing more; and with no order of the id the state is
    returned as it was. *)
Theorem approveOrder_effect (orderId : string) (s : State) :
  status_set orderId Approved (orders s) (orders (approveOrder orderId s))
  /\ aircraft (approveOrder orderId s) = aircraft s
  /\ mission (approveOrder orderId s) = mission s
  /\ activeMissionOrderId (approveOrder orderId s) = activeMissionOrderId s
  /\ approveOrder orderId (approveOrder orderId s) = approveOrder orderId s
  /\ (Forall (fun o => Order.id o <> orderId) (orders s) ->
      approveOrder orderId s = s).
Proof.
  split; [apply set_status_spec|]. repeat (split; [reflexivity|]).
  split.
  - unfold approveOrder. cbn [orders aircraft mission activeMissionOrderId].
    rewrite set_status_twice. reflexivity.
  - intros Habsent. unfold approveOrder.
    rewrite (set_status_absent _ _ _ Habsent). destruct s; reflexivity.
Qed.

(** No seed order has the id [ORD-0000]. *)
Lemma approveOrder_effect_witness :
  approveOrder "ORD-0000" initialState = initialState.
Proof.
  destruct (approveOrder_effect "ORD-0000" initialState)
    as (_ & _ & _ & _ & _ & Habsent).
  apply Habsent. unfold initialState, initialOrders. cbn [orders].
  repeat constructor; cbn; discriminate.
Defined.

(** X13. [addOrder] appends without looking at the ids: the collection
    grows by one, the orders already there keep their place, and when the
    id of the new order is already taken, the lookup by id of
    [startMission] keeps finding the older order, not the new one. *)
Theorem addOrder_keeps_first_of_id (order : Order.t) (s : State) :
  orders (addOrder order s) = orders s ++ [order]
  /\ length (orders (addOrder order s)) = S (length (orders s))
  /\ (forall orderId first,
        List.find (has_id orderId) (orders s) = Some first ->
        List.find (has_id orderId) (orders (addOrder order s)) = Some first)
  /\ (Forall (fun o => Order.id o <> Order.id order) (orders s) ->
      List.find (has_id (Order.id order)) (orders (addOrder order s))
      = Some order).
Proof.
  unfold addOrder. cbn [orders].
  split; [reflexivity|]. split; [rewrite length_app; cbn; lia|].
  split.
  - intros orderId first.
    induction (orders s) as [|o os IH]; cbn [List.find app]; [discriminate|].
    destruct (has_id orderId o); auto.
  - intros Habsent.
    induction Habsent as [|o os Ho _ IH]; cbn [List.find app].
    + unfold has_id. rewrite String.eqb_refl. reflexivity.
    + unfold has_id in *. apply String.eqb_neq in Ho. rewrite Ho. exact IH.
Qed.

(** A second [ORD-4821] is shadowed by the seed order of that id. *)
Lemma addOrder_keeps_first_of_id_witness :
  let twin := Order.mk "ORD-4821" "Replacement" "9 kg" "Depot C" "HQ Tower"
                       Approved in
  option_map Order.packageType
    (List.find (has_id "ORD-4821") (orders (addOrder twin initialState)))
  = Some "Medical Supplies"%string.
Proof.
  intros twin.
  destruct (addOrder_keeps_first_of_id twin initialState)
    as (_ & _ & Hfirst & _).
  rewrite (Hfirst "ORD-4821"%string
             (Order.mk "ORD-4821" "Medical Supplies" "2.4 kg"
                       "Warehouse A" "Hospital B" Pending) eq_refl).
  reflexivity.
Defined.

(** ** Route progress without returnHome *)

(** X14. As long as [returnHome] is not used, the route progress is the
    progress over 100 after every run of commands and ticks from the
    initial state. *)
Theorem synced_without_returnHome (M : MathLib) (cs : list Command) :
  ~ In ReturnHome cs ->
  progress_synced (run M cs initialState).
Proof.
  unfold run. rewrite <- (rev_involutive cs).
  induction (rev cs) as [|c l IH]; intros Hnot.
  - unfold progress_synced. cbn. reflexivity.
  - cbn [rev] in *. rewrite fold_left_app. cbn [fold_left].
    apply exec_progress_synced.
    + intros ->. apply Hnot. apply in_or_app. right. left. reflexivity.
    + apply IH. intros Hin. apply Hnot. apply in_or_app. left. exact Hin.
Qed.

(** The flight of [ORD-4821] after two ticks. *)
Lemma synced_without_returnHome_witness :
  progress_synced
    (run Sample.math
       [ApproveOrder "ORD-4821"; StartMission "ORD-4821";
        Tick Sample.draws; Tick Sample.draws] initialState).
Proof.
  apply synced_without_returnHome.
  intros [H | [H | [H | [H | []]]]]; discriminate H.
Defined.

(** ** The aircraft panel *)

(** The minutes and seconds of a time that is not negative. *)
Lemma formatTime_parts_spec seconds :
  0 <= seconds ->
  (0 <= fst (formatTime_parts seconds))%Z
  /\ (0 <= snd (formatTime_parts seconds) < 60)%Z
  /\ (60 * fst (formatTime_parts seconds) + snd (formatTime_parts seconds)
      = Qfloor seconds)%Z.
Proof.
  intros Hs. unfold formatTime_parts. cbn [fst snd].
  set (m := Qfloor (seconds / 60)).
  assert (Hdiv : 0 <= seconds / 60) by (apply Qle_shift_div_l; lra).
  destruct (Qfloor_bounds (seconds / 60)) as [Hlo Hhi]. fold m in Hlo, Hhi.
  assert (Eq : seconds == 60 * (seconds / 60)) by field.
  set (q := seconds / 60) in *.
  assert (Hlo' : 60 * inject_Z m <= seconds) by lra.
  assert (Hhi' : seconds < 60 * inject_Z m + 60) by lra.
  assert (Hm : (0 <= m)%Z).
  { subst m. change 0%Z with (Qfloor 0) at 1. apply Qfloor_resp_le.
    exact Hdiv. }
  assert (Hrem : js_rem seconds 60 == seconds - 60 * inject_Z m).
  { unfold js_rem, Math_trunc.
    assert (Hle : Qle_bool 0 (seconds / 60) = true)
      by (apply Qle_bool_iff; exact Hdiv).
    rewrite Hle. reflexivity. }
  clearbody q.
  rewrite Hrem.
  destruct (Qfloor_bounds (seconds - 60 * inject_Z m)) as [Hlo2 Hhi2].
  set (r := Qfloor (seconds - 60 * inject_Z m)) in *.
  assert (Hr0 : (0 <= r)%Z).
  { subst r. change 0%Z with (Qfloor 0) at 1. apply Qfloor_resp_le. lra. }
  assert (Hr60 : (r < 60)%Z).
  { rewrite Zlt_Qlt. change (inject_Z 60) with 60. lra. }
  split; [exact Hm|]. split; [lia|].
  symmetry. apply Qfloor_unique.
  - rewrite inject_Z_plus, inject_Z_mult. change (inject_Z 60) with 60. lra.
  - rewrite inject_Z_plus, inject_Z_mult. change (inject_Z 60) with 60. lra.
Qed.

(** A number of seconds below 60 is printed on two characters. *)
Lemma padStart2_seconds n :
  (0 <= n < 60)%Z -> String.length (padStart2 (pretty n)) = 2%nat.
Proof.
  intros Hn.
  assert (Hall : forallb
                   (fun k => Nat.eqb
                               (String.length
                                  (padStart2 (pretty (Z.of_nat k)))) 2)
                   (seq 0 60) = true) by (vm_compute; reflexivity).
  rewrite forallb_forall in Hall.
  specialize (Hall (Z.to_nat n)).
  rewrite Z2Nat.id in Hall by lia.
  apply Nat.eqb_eq. apply Hall. apply in_seq. lia.
Qed.

(** X15. For a time that is not negative, [formatTime] prints the whole
    minutes, a colon and the remaining whole seconds on exactly two
    characters; the seconds are below 60, and minutes and seconds add up
    to the time rounded down. *)
Theorem formatTime_minutes_and_seconds (seconds : Q) :
  0 <= seconds ->
  exists m s,
    formatTime seconds = pretty m +:+ ":" +:+ padStart2 (pretty s)
    /\ String.length (padStart2 (pretty s)) = 2%nat
    /\ (0 <= m)%Z /\ (0 <= s < 60)%Z
    /\ (60 * m + s = Qfloor seconds)%Z.
Proof.
  intros Hs.
  destruct (formatTime_parts_spec seconds Hs) as (Hm & Hsec & Hsum).
  unfold formatTime.
  destruct (formatTime_parts seconds) as [m s]. cbn [fst snd] in *.
  exists m, s. split; [reflexivity|].
  split; [apply padStart2_seconds; exact Hsec|]. auto.
Qed.

(** Two minutes and five seconds. *)
Lemma formatTime_minutes_and_seconds_witness :
  formatTime 125 = "2:05"%string
  /\ exists m s, (60 * m + s = 125)%Z /\ (0 <= s < 60)%Z.
Proof.
  split; [reflexivity|].
  destruct (formatTime_minutes_and_seconds 125) as (m & s & _ & _ & _ & Hs & Hsum);
    [discriminate|].
  exists m, s. split; [exact Hsum | exact Hs].
Defined.

(** X16. The flight time shown for a reachable state is exact: the
    elapsed time is a whole number of seconds, not negative, and the
    minutes and seconds of [formatTime] add up to it. *)
Theorem flight_time_is_exact (M : MathLib) (s : State) :
  reachable M s ->
  let '(m, sec) := formatTime_parts (Mission.elapsed (mission s)) in
  inject_Z (60 * m + sec) == Mission.elapsed (mission s)
  /\ (0 <= m)%Z /\ (0 <= sec < 60)%Z.
Proof.
  intros Hs.
  destruct (reachable_mission_ok M s Hs) as (_ & _ & He0 & Hint & _).
  destruct (formatTime_parts_spec _ He0) as (Hm & Hsec & Hsum).
  destruct (formatTime_parts (Mission.elapsed (mission s))) as [m sec].
  cbn [fst snd] in *. rewrite Hsum. auto.
Qed.

(** Two ticks into the flight of [ORD-4821]: two seconds. *)
Lemma flight_time_is_exact_witness :
  let s := run Sample.math [Tick Sample.draws; Tick Sample.draws]
             Sample.flying in
  let '(m, sec) := formatTime_parts (Mission.elapsed (mission s)) in
  inject_Z (60 * m + sec) == Mission.elapsed (mission s).
Proof.
  intros s.
  assert (Hs : reachable Sample.math s).
  { apply (reachable_run Sample.math
             [ApproveOrder "ORD-4821"; StartMission "ORD-4821";
              Tick Sample.draws; Tick Sample.draws]).
    reflexivity. }
  pose proof (flight_time_is_exact Sample.math s Hs) as H.
  destruct (formatTime_parts (Mission.elapsed (mission s))) as [m sec].
  exact (proj1 H).
Defined.

Lemma batteryStatus_antitone a b :
  Aircraft.battery b <= Aircraft.battery a ->
  (level_rank (batteryStatus a) <= level_rank (batteryStatus b))%nat.
Proof.
  intros Hle. unfold batteryStatus, Qgt_bool.
  destruct (Qle_bool (Aircraft.battery a) 50) eqn:A50;
  destruct (Qle_bool (Aircraft.battery a) 20) eqn:A20;
  destruct (Qle_bool (Aircraft.battery b) 50) eqn:B50;
  destruct (Qle_bool (Aircraft.battery b) 20) eqn:B20;
  cbn [negb level_rank]; try lia; exfalso;
  repeat match goal with
         | H : Qle_bool _ _ = true |- _ => apply Qle_bool_iff in H
         | H : Qle_bool ?x ?y = false |- _ =>
             assert (y < x)
               by (destruct (Qlt_le_dec y x) as [|Hc]; [assumption|];
                   apply Qle_bool_iff in Hc; congruence);
             clear H
         end; lra.
Qed.

(** X17. The battery indicator of the aircraft panel never improves:
    from a reachable state, no command or tick takes it from [danger]
    back to [warning] or from [warning] back to [normal]. *)
Theorem battery_indicator_never_improves (M : MathLib) (c : Command)
    (s : State) :
  reachable M s ->
  valid_command c = true ->
  (level_rank (batteryStatus (aircraft s))
   <= level_rank (batteryStatus (aircraft (exec M c s))))%nat.
Proof.
  intros Hs Hc. apply batteryStatus_antitone.
  destruct (reachable_aircraft_ok M s Hs) as (Hb0 & _).
  destruct (exec_battery M c s) as [-> | ->]; [lra|].
  destruct (Math_max_cases 0 (Aircraft.battery (aircraft s) - 0.08))
    as [[? ->] | [? ->]]; lra.
Qed.

(** One tick into the flight of [ORD-4821]: still [normal]. *)
Lemma battery_indicator_never_improves_witness :
  (level_rank (batteryStatus (aircraft Sample.flying))
   <= level_rank
        (batteryStatus
           (aircraft (exec Sample.math (Tick Sample.draws) Sample.flying))))%nat.
Proof.
  apply battery_indicator_never_improves; [|reflexivity].
  apply (reachable_run Sample.math
           [ApproveOrder "ORD-4821"; StartMission "ORD-4821"]).
  reflexivity.
Defined.

(** ** The generated route *)



(** ** Active missions *)

Lemma exec_active_ok (M : MathLib) c s : active_ok s -> active_ok (exec M c s).
Proof.
  intros H.
  destruct c as [i | i | o | i | | | | d]; cbn [exec].
  - exact H.
  - exact H.
  - exact H.
  - unfold startMission.
    repeat match goal with
           | |- context [match ?x with _ => _ end] => destruct x
           end; auto.
    unfold active_ok, launch.
    cbn [activeMissionOrderId aircraft mission Aircraft.status
         Mission.route Mission.progress].
    intros _. split; [reflexivity|].
    split; [apply generateAerialRoute_length | reflexivity].
  - unfold emergencyStop. destruct (negb _); [exact H|].
    unfold active_ok. cbn [activeMissionOrderId id_truthy]. discriminate.
  - unfold returnHome. destruct (negb _) eqn:E; [exact H|].
    apply negb_false_iff in E. destruct (H E) as (Hst & Hlen & _).
    unfold active_ok.
    cbn [activeMissionOrderId aircraft mission Mission.route
         Mission.progress].
    intros _. split; [exact Hst|]. split; [exact Hlen | reflexivity].
  - exact H.
  - unfold tick. destruct (negb _) eqn:E; [exact H|].
    apply negb_false_iff in E. destruct (H E) as (Hst & Hlen & _).
    destruct (Qle_bool 100 _) eqn:Hnp; unfold active_ok;
      cbn [activeMissionOrderId aircraft mission Mission.route
           Mission.progress id_truthy drain Aircraft.status];
      [discriminate|].
    intros _. split; [exact Hst|]. split; [exact Hlen|].
    destruct (Qlt_le_dec
                (Math_min (Mission.progress (mission s) + 1.5) 100) 100)
      as [|Hge]; [assumption|].
    apply Qle_bool_iff in Hge. congruence.
Qed.

(** X19. While a mission is active the aircraft is in flight, the route
    has its 51 points and the progress is below 100: a mission at 100 is
    never active. *)
Theorem active_mission_is_under_way (M : MathLib) (s : State) :
  reachable M s ->
  id_truthy (activeMissionOrderId s) = true ->
  Aircraft.status (aircraft s) = InFlight
  /\ length (Mission.route (mission s)) = 51%nat
  /\ Mission.progress (mission s) < 100.
Proof.
  intros Hs. revert s Hs. apply (reachable_invariant M active_ok).
  - unfold active_ok. cbn. discriminate.
  - intros c s _ H. apply exec_active_ok. exact H.
Qed.

(** The flight of [ORD-4821] sent home and two ticks later. *)
Lemma active_mission_is_under_way_witness :
  let s := run Sample.math [ReturnHome; Tick Sample.draws; Tick Sample.draws]
             Sample.flying in
  Aircraft.status (aircraft s) = InFlight
  /\ Mission.progress (mission s) < 100.
Proof.
  intros s.
  assert (Hs : reachable Sample.math s).
  { apply (reachable_run Sample.math
             [ApproveOrder "ORD-4821"; StartMission "ORD-4821"; ReturnHome;
              Tick Sample.draws; Tick Sample.draws]).
    reflexivity. }
  destruct (active_mission_is_under_way Sample.math s Hs) as (Hst & _ & Hp).
  - reflexivity.
  - split; [exact Hst | exact Hp].
Defined.

(** ** After a rejection *)

(** X20. A rejected id is gone for good: rejecting it again, approving
    it or starting it afterwards changes nothing. *)
Theorem rejected_order_is_gone (M : MathLib) (orderId : string) (s : State) :
  rejectOrder orderId (rejectOrder orderId s) = rejectOrder orderId s
  /\ approveOrder orderId (rejectOrder orderId s) = rejectOrder orderId s
  /\ startMission M orderId (rejectOrder orderId s) = rejectOrder orderId s.
Proof.
  pose proof (rejectOrder_clears orderId s) as Hclear.
  set (s' := rejectOrder orderId s) in *.
  split; [|split].
  - unfold rejectOrder at 1. rewrite (filter_absent _ _ Hclear).
    destruct s'; reflexivity.
  - unfold approveOrder. rewrite (set_status_absent _ _ _ Hclear).
    destruct s'; reflexivity.
  - unfold startMission. rewrite (find_absent _ _ Hclear). reflexivity.
Qed.

(** ** The battery over a mission *)

Section BatteryCost.
Context (M : MathLib).




End BatteryCost.


